(** * Financial projections: extraction of assumptions and projection table

    A shallow embedding of [src/app.py]: [identify_key_sections],
    [calculate_growth_rates], [main_flow] and the closure [build_new_df] of
    [secondary_flow].

    Python dictionaries that are only looked up and assigned
    ([avg_growth_rates]) are finite maps; dictionaries that are iterated
    ([sections], [growth_rates], [initial_values], [new_table_data]) are
    association lists in insertion order.  Exceptions are values of
    [result]; the in-place update of the shared [assumptions_data] is made
    explicit by returning the updated record next to the result. *)

From Stdlib Require Import ZArith Floats.
From stdpp Require Import base option list gmap strings pretty.

Local Open Scope string_scope.
Local Open Scope Z_scope.

(** ** Exceptions *)

Inductive exn : Set :=
  | IndexError
  | ZeroDivisionError
  | KeyError
  | ValueError
  | OverflowError.

Inductive result (A : Type) : Type :=
  | Ok (a : A)
  | Err (e : exn).
Arguments Ok {A} a.
Arguments Err {A} e.

#[global] Instance result_ret : MRet result := fun _ a => Ok a.
#[global] Instance result_bind : MBind result := fun _ _ f m =>
  match m with
  | Ok a => f a
  | Err e => Err e
  end.

Definition from_option {A} (e : exn) (o : option A) : result A :=
  match o with
  | Some a => Ok a
  | None => Err e
  end.

Definition is_ok {A} (r : result A) : bool :=
  match r with
  | Ok _ => true
  | Err _ => false
  end.

(** ** Arithmetic

    The numeric operations the program applies to spreadsheet cells and
    rates.  They are kept abstract: every statement below holds for each
    implementation of this interface, binary64 included.  [quot] is the
    quotient as the hardware gives it (total); whether a zero divisor
    raises is decided by the kind of scalar, see [scalar_div].  [pow] is
    [**] with an int exponent; it gives [None] where the power raises
    [OverflowError], as it does on Python floats when the result leaves
    the range of the format (on NumPy scalars the power is then an
    infinity, a value like any other). *)

Class Arith (num : Type) := {
  of_Z : Z → num;                (* an int literal or int value used as a number *)
  nan : num;                     (* the filler pandas uses for a missing row *)
  add : num → num → num;         (* x + y *)
  sub : num → num → num;         (* x - y *)
  mul : num → num → num;         (* x * y *)
  quot : num → num → num;        (* x / y where no exception is raised *)
  pow : num → Z → option num;    (* x ** n, or None for OverflowError *)
  round2 : num → num;            (* round(x, 2) *)
  is_zero : num → bool;          (* x == 0.0 *)
}.

(** The cells of a row taken with [.values] are either Python objects
    (object dtype: [/] raises on a zero divisor) or NumPy scalars (numeric
    dtype: [/] returns an infinity or a NaN and only warns). *)
Inductive scalar_kind : Set :=
  | PyObject
  | NumPyScalar.

Section Program.
Context {num : Type} `{Arith num}.

(** [a / b] on two cells of kind [k]. *)
Definition scalar_div (k : scalar_kind) (a b : num) : result num :=
  match k with
  | PyObject => if is_zero b then Err ZeroDivisionError else Ok (quot a b)
  | NumPyScalar => Ok (quot a b)
  end.

(** ** Data model *)

(** The input [pd.DataFrame], read by position only.  [df_kind] is what
    the cells of a row sliced over columns 1 to 13 are: Python objects when
    one of these columns has the object dtype, NumPy scalars when all are
    numeric. *)
Record DataFrame := {
  df_kind : scalar_kind;
  df_rows : list (list num);
}.

(** A one-dimensional array as [.values] returns it. *)
Record ndarray := {
  dtype : scalar_kind;
  elems : list num;
}.

(** The dictionary returned by [main_flow]. *)
Record Assumptions := {
  static_keys : list string;
  avg_growth_rates : gmap string num;
  initial_values : list (string * num);
}.

(** The data frame returned by [build_new_df]: column labels, and the rows
    by index label.  The first column, [Category], holds each row's own
    label. *)
Record ProjectionTable := {
  columns : list string;
  rows : list (string * list num);
}.

Definition category_names : list string :=
  ["Product Sales"; "Service Sales"; "Cost of Goods Sold"; "Marketing";
   "Staff Salaries"].

(** Lookup in a dictionary kept as an association list. *)
Fixpoint assoc {V} (k : string) (d : list (string * V)) : option V :=
  match d with
  | [] => None
  | (k', v) :: d' => if decide (k = k') then Some v else assoc k d'
  end.

(** ** [identify_key_sections] *)

(** [df.iloc[r, lo:hi].values]: the row position is checked, the column
    slice is cut to the columns that exist. *)
Definition iloc_row_slice (df : DataFrame) (r lo hi : nat) : result ndarray :=
  row ← from_option IndexError (df_rows df !! r);
  mret {| dtype := df_kind df; elems := take (hi - lo) (drop lo row) |}.

Definition identify_key_sections (df : DataFrame)
  : result (list (string * ndarray)) :=
  ps ← iloc_row_slice df 2 1 14;
  ss ← iloc_row_slice df 3 1 14;
  cogs ← iloc_row_slice df 6 1 14;
  mk ← iloc_row_slice df 7 1 14;
  st ← iloc_row_slice df 8 1 14;
  mret [("Product Sales", ps); ("Service Sales", ss);
        ("Cost of Goods Sold", cogs); ("Marketing", mk);
        ("Staff Salaries", st)].

(** ** [calculate_growth_rates] *)

(** [round((values[i] - values[i - 1]) / values[i - 1], 2)] *)
Definition growth_rate (values : ndarray) (i : nat) : result num :=
  vi ← from_option IndexError (elems values !! i);
  vp ← from_option IndexError (elems values !! (i - 1)%nat);
  q ← scalar_div (dtype values) (sub vi vp) vp;
  mret (round2 q).

(** The comprehension over [range(1, len(values))]. *)
Definition growth_series (values : ndarray) : result (list num) :=
  mapM (growth_rate values) (seq 1 (length (elems values) - 1)).

(** The keys of [section_data] are distinct (it is a dictionary), so each
    assignment [growth_rates[key] = ...] adds an entry. *)
Definition calculate_growth_rates (section_data : list (string * ndarray))
  : result (list (string * list num)) :=
  mapM (λ kv, rs ← growth_series kv.2; mret (kv.1, rs)) section_data.

(** ** [main_flow] *)

(** [0.0 in values] *)
Definition has_zero (values : list num) : bool := existsb is_zero values.

(** [sum(values) / len(values)]: [sum] starts from the int [0]; on the
    empty list both operands are the int [0] and the division raises. *)
Definition mean (values : list num) : result num :=
  match values with
  | [] => Err ZeroDivisionError
  | _ :: _ =>
      Ok (quot (foldl add (of_Z 0) values) (of_Z (Z.of_nat (length values))))
  end.

Definition is_static (static : list string) (key : string) : bool :=
  bool_decide (key ∈ static).

Definition main_flow (df : DataFrame) : result Assumptions :=
  sections_data ← identify_key_sections df;
  growth_rates ← calculate_growth_rates sections_data;
  let static := (filter (λ kv, has_zero kv.2 = true) growth_rates).*1 in
  avg ← mapM (λ kv, m ← mean kv.2; mret (kv.1, round2 m))
             (filter (λ kv, is_static static kv.1 = false) growth_rates);
  initial ← mapM (λ kv, v ← from_option IndexError (elems kv.2 !! 0%nat);
                        mret (kv.1, v)) sections_data;
  mret {| static_keys := static;
          avg_growth_rates := list_to_map avg;
          initial_values := initial |}.

(** ** [build_new_df] *)

(** One iteration of the loop over [initial_values.items()]. *)
Definition project_row (static : list string) (rates : gmap string num)
    (periods : Z) (key : string) (initial_value : num) : result (list num) :=
  if is_static static key then
    mret (replicate (Z.to_nat (periods + 1)) initial_value)
  else
    mapM (λ period,
            rate ← from_option KeyError (rates !! key);
            power ← from_option OverflowError (pow (add (of_Z 1) rate) period);
            mret (round2 (mul initial_value power)))
         (seqZ 0 (periods + 1)).

(** [pd.DataFrame(new_table_data).transpose()]: the lists must have one
    length, which becomes the number of columns; the keys label the rows. *)
Definition transposed_frame (data : list (string * list num))
  : result (nat * list (string * list num)) :=
  match data with
  | [] => Ok (0%nat, [])
  | (_, v) :: _ =>
      if forallb (λ kv, Nat.eqb (length kv.2) (length v)) data
      then Ok (length v, data)
      else Err ValueError
  end.

(** [frame.columns = labels]: the number of labels must be the number of
    columns. *)
Definition set_columns (labels : list string)
    (frame : nat * list (string * list num)) : result ProjectionTable :=
  if decide (length labels = frame.1)
  then Ok {| columns := labels; rows := frame.2 |}
  else Err ValueError.

(** [frame.loc[label]] *)
Definition loc (t : ProjectionTable) (label : string) : result (list num) :=
  from_option KeyError (assoc label (rows t)).

Fixpoint set_row (label : string) (v : list num)
    (rs : list (string * list num)) : list (string * list num) :=
  match rs with
  | [] => [(label, v)]
  | (l, w) :: rs' =>
      if decide (label = l) then (l, v) :: rs' else (l, w) :: set_row label v rs'
  end.

(** [frame.loc[label] = v]: overwrites the row, or appends it. *)
Definition set_loc (t : ProjectionTable) (label : string) (v : list num)
  : ProjectionTable :=
  {| columns := columns t; rows := set_row label v (rows t) |}.

Definition row_order : list string :=
  ["Product Sales"; "Service Sales"; "Total Sales"; "Cost of Goods Sold";
   "Marketing"; "Staff Salaries"; "Total Operating Expenses"; "Net Income"].

(** [frame.reindex(labels)]: a label with no row gets a row of NaN. *)
Definition reindex (labels : list string) (t : ProjectionTable)
  : ProjectionTable :=
  {| columns := columns t;
     rows := map (λ l, (l, default (replicate (length (columns t)) nan)
                                   (assoc l (rows t)))) labels |}.

(** [frame.insert(0, "Category", frame.index)] *)
Definition insert_category (t : ProjectionTable) : ProjectionTable :=
  {| columns := "Category" :: columns t; rows := rows t |}.

Definition month_labels (periods : Z) : list string :=
  "Initial" :: map (λ i, "Month " +:+ pretty i) (seqZ 1 periods).

(** [avg_growth_rates] after the two assignments from the sliders.  The
    sliders deliver ints from 0 to 100; the quotient of an int by [100] is
    a float and raises nothing as long as the int is within the range of
    the floats. *)
Definition override_rates (rates : gmap string num)
    (product_sales_rate service_sales_rate : Z) : gmap string num :=
  <["Service Sales" := quot (of_Z service_sales_rate) (of_Z 100)]>
    (<["Product Sales" := quot (of_Z product_sales_rate) (of_Z 100)]> rates).

(** The table computed from the (already updated) rates. *)
Definition build_table (static : list string) (rates : gmap string num)
    (initial : list (string * num)) (periods : Z) : result ProjectionTable :=
  new_table_data ← mapM (λ kv, r ← project_row static rates periods kv.1 kv.2;
                               mret (kv.1, r)) initial;
  frame ← transposed_frame new_table_data;
  t ← set_columns (month_labels periods) frame;
  ps ← loc t "Product Sales";
  ss ← loc t "Service Sales";
  let t := set_loc t "Total Sales" (zip_with add ps ss) in
  cogs ← loc t "Cost of Goods Sold";
  mk ← loc t "Marketing";
  st ← loc t "Staff Salaries";
  let t := set_loc t "Total Operating Expenses"
                   (zip_with add (zip_with add cogs mk) st) in
  ts ← loc t "Total Sales";
  toe ← loc t "Total Operating Expenses";
  let t := set_loc t "Net Income" (zip_with sub ts toe) in
  mret (insert_category (reindex row_order t)).

(** The closure [build_new_df]: it returns the shared [assumptions_data]
    as the call leaves it, and the table or the exception raised. *)
Definition build_new_df (assumptions_data : Assumptions)
    (periods product_sales_rate service_sales_rate : Z)
  : Assumptions * result ProjectionTable :=
  let static := static_keys assumptions_data in
  let rates := override_rates (avg_growth_rates assumptions_data)
                              product_sales_rate service_sales_rate in
  let initial := initial_values assumptions_data in
  ({| static_keys := static; avg_growth_rates := rates;
      initial_values := initial |},
   build_table static rates initial periods).

End Program.

Arguments DataFrame : clear implicits.
Arguments ndarray : clear implicits.
Arguments Assumptions : clear implicits.
Arguments ProjectionTable : clear implicits.

(** ** A binary64 implementation of the arithmetic

    IEEE 754 double precision, the representation of both Python floats and
    NumPy [float64] scalars.  Sums, differences, products and quotients are
    the correctly rounded primitive operations.  [round(x, 2)] is the
    correctly rounded decimal rounding of Python floats (ties to even on
    the exact binary value); NumPy rounds by scaling, which gives the same
    values on the sample sheets below.  [x ** n] is computed by repeated
    multiplication and raises, as on Python floats, when a finite base
    gives an infinite power; the rates whose powers overflow in the samples
    below are the ones assigned from the sliders, which are Python
    floats. *)

Module Binary64.

Definition float_of_Z (z : Z) : float :=
  SF2Prim (binary_normalize prec emax z 0 false).

Definition float_is_zero (x : float) : bool := PrimFloat.eqb x 0%float.

Definition float_power (x : float) (n : Z) : float :=
  match n with
  | Z0 => 1%float
  | Zpos p => Pos.iter (λ acc, PrimFloat.mul acc x) 1%float p
  | Zneg p => PrimFloat.div 1 (Pos.iter (λ acc, PrimFloat.mul acc x) 1%float p)
  end.

Definition float_pow (x : float) (n : Z) : option float :=
  let r := float_power x n in
  if PrimFloat.is_infinity r && PrimFloat.is_finite x then None else Some r.

(** The integer nearest to [m * 100 * 2 ^ e], ties to even. *)
Definition hundredths (m : positive) (e : Z) : Z :=
  match e with
  | Zneg p =>
      let d := Z.pow_pos 2 p in
      let q := (Zpos m * 100) / d in
      let r := (Zpos m * 100) mod d in
      if (2 * r <? d)%Z then q
      else if (d <? 2 * r)%Z then q + 1
      else if Z.even q then q else q + 1
  | _ => Zpos m * 100 * 2 ^ e
  end.

Definition float_round2 (x : float) : float :=
  match Prim2SF x with
  | S754_finite s m e =>
      let n := hundredths m e in
      if (n <? 2 ^ 53)%Z then
        let r := PrimFloat.div (float_of_Z n) 100%float in
        if s then PrimFloat.opp r else r
      else x
  | _ => x
  end.

#[global] Instance float_arith : Arith float := {|
  of_Z := float_of_Z;
  nan := PrimFloat.nan;
  add := PrimFloat.add;
  sub := PrimFloat.sub;
  mul := PrimFloat.mul;
  quot := PrimFloat.div;
  pow := float_pow;
  round2 := float_round2;
  is_zero := float_is_zero;
|}.

End Binary64.

(** * Vocabulary of the statements *)

Section Vocabulary.
Context {num : Type} `{Arith num}.

(** All rows of a data frame have the same number of columns. *)
Definition rectangular (ncols : nat) (df : DataFrame num) : Prop :=
  Forall (λ row, length row = ncols) (df_rows df).

(** The expected shape: at least 9 rows and 14 columns. *)
Definition well_shaped (df : DataFrame num) : Prop :=
  (9 ≤ length (df_rows df))%nat ∧ Forall (λ row, (14 ≤ length row)%nat) (df_rows df).

(** The slice [row[1:14]] of a row of the frame. *)
Definition slice_of (df : DataFrame num) (row : list num) : ndarray num :=
  {| dtype := df_kind df; elems := take 13 (drop 1 row) |}.

(** The values a growth series divides by: all but the last. *)
Definition divisors (l : list num) : list num := take (length l - 1) l.

(** The growth series written without exceptions. *)
Definition rates_of (l : list num) : list num :=
  zip_with (λ vp vi, round2 (quot (sub vi vp) vp)) l (drop 1 l).

(** Some division of the series of [v] raises. *)
Definition division_raises (v : ndarray num) : bool :=
  match dtype v with
  | PyObject => existsb is_zero (divisors (elems v))
  | NumPyScalar => false
  end.

(** The positions of the five category rows. *)
Definition category_rows : list nat := [2; 3; 6; 7; 8]%nat.

(** One of the first 12 values of some category row is zero. *)
Definition zero_divisor (df : DataFrame num) : bool :=
  existsb (λ r, match df_rows df !! r with
                | Some row => existsb is_zero (take 12 (drop 1 row))
                | None => false
                end) category_rows.

(** A division by zero raises only on Python objects. *)
Definition raises_on_zero (df : DataFrame num) : bool :=
  match df_kind df with
  | PyObject => zero_divisor df
  | NumPyScalar => false
  end.

(** The growth series of every section, written without exceptions. *)
Definition growth_of (sections : list (string * ndarray num))
  : list (string * list num) :=
  map (λ kv, (kv.1, rates_of (elems kv.2))) sections.

(** [round(sum(values) / len(values), 2)] for a non-empty list. *)
Definition average (values : list num) : num :=
  round2 (quot (foldl add (of_Z 0) values) (of_Z (Z.of_nat (length values)))).

(** The static keys, and the entries that get an average. *)
Definition static_of (growth : list (string * list num)) : list string :=
  (filter (λ kv, has_zero kv.2 = true) growth).*1.

Definition growing_of (growth : list (string * list num))
  : list (string * list num) :=
  filter (λ kv, is_static (static_of growth) kv.1 = false) growth.

Definition is_nil {A} (l : list A) : bool :=
  match l with
  | [] => true
  | _ :: _ => false
  end.

(** What extraction guarantees of the assumptions and every call of
    [build_new_df] keeps: the initial values are those of the five
    categories, and each expense category that is not static has a rate
    (the two sales rates are assigned by every call). *)
Definition well_formed (a : Assumptions num) : Prop :=
  (initial_values a).*1 = category_names ∧
  ∀ key, key ∈ ["Cost of Goods Sold"; "Marketing"; "Staff Salaries"] →
         key ∉ static_keys a → is_Some (avg_growth_rates a !! key).

(** The compound series of a category that is not static, or the
    [OverflowError] of its first power that has no value. *)
Definition compound (initial_value rate : num) (periods : Z)
  : result (list num) :=
  mapM (λ period,
          power ← from_option OverflowError (pow (add (of_Z 1) rate) period);
          mret (round2 (mul initial_value power)))
       (seqZ 0 (periods + 1)).

(** Every power the loop computes has a value: those of the categories
    with an initial value that are not static, for the periods [0] to
    [periods]. *)
Definition powers_return (static : list string) (rates : gmap string num)
    (initial : list (string * num)) (periods : Z) : Prop :=
  ∀ key initial_value rate p,
    (key, initial_value) ∈ initial → key ∉ static →
    rates !! key = Some rate → 0 ≤ p ≤ periods →
    is_Some (pow (add (of_Z 1) rate) p).

(** Some power the loop computes raises. *)
Definition power_overflows (static : list string) (rates : gmap string num)
    (initial : list (string * num)) (periods : Z) : Prop :=
  ∃ key initial_value rate p,
    ((key, initial_value) ∈ initial) ∧ (key ∉ static) ∧
    (rates !! key = Some rate) ∧ (0 ≤ p ≤ periods) ∧
    (pow (add (of_Z 1) rate) p = None).

(** The eight rows of the table, from the five projected rows. *)
Definition table_of (periods : Z) (ps ss cogs mk st : list num)
  : ProjectionTable num :=
  {| columns := "Category" :: month_labels periods;
     rows := [("Product Sales", ps); ("Service Sales", ss);
              ("Total Sales", zip_with add ps ss);
              ("Cost of Goods Sold", cogs); ("Marketing", mk);
              ("Staff Salaries", st);
              ("Total Operating Expenses",
               zip_with add (zip_with add cogs mk) st);
              ("Net Income",
               zip_with sub (zip_with add ps ss)
                            (zip_with add (zip_with add cogs mk) st))] |}.

End Vocabulary.

(** * Sample sheets *)

Module Examples.
Import Binary64.

Definition blank (ncols : nat) : list float := replicate ncols 0%float.

(** A row of the sheet: the label cell, then the monthly values. *)
Definition line (values : list Z) : list float :=
  0%float :: map float_of_Z values.

Definition sheet_of (kind : scalar_kind) (product_sales : list Z)
  : DataFrame float :=
  {| df_kind := kind;
     df_rows :=
       [blank 14; blank 14;
        line product_sales;
        line [200; 210; 220; 230; 240; 250; 260; 270; 280; 290; 300; 310; 320];
        blank 14; blank 14;
        line [50; 50; 50; 50; 50; 50; 50; 50; 50; 50; 50; 50; 50];
        line [20; 20; 30; 20; 20; 30; 20; 20; 30; 20; 20; 30; 20];
        line [300; 303; 306; 309; 312; 315; 318; 321; 324; 327; 330; 333; 336]] |}.

Definition doubling : list Z :=
  [1; 2; 4; 8; 16; 32; 64; 128; 256; 512; 1024; 2048; 4096].

(** Product sales start at zero: the first growth rate divides by zero. *)
Definition from_zero : list Z :=
  [0; 10; 20; 30; 40; 50; 60; 70; 80; 90; 100; 110; 120].

Definition flat : list Z :=
  [100; 100; 100; 100; 100; 100; 100; 100; 100; 100; 100; 100; 100].

(** The sheet as a numeric frame. *)
Definition sheet : DataFrame float := sheet_of NumPyScalar doubling.

(** The same with a zero divisor in the product sales, as a numeric frame
    and as a frame of Python objects. *)
Definition zero_sheet : DataFrame float := sheet_of NumPyScalar from_zero.
Definition zero_object_sheet : DataFrame float := sheet_of PyObject from_zero.

(** Product sales that never change, hence static. *)
Definition flat_sheet : DataFrame float := sheet_of NumPyScalar flat.

(** Nine rows of five columns only. *)
Definition narrow_sheet : DataFrame float :=
  {| df_kind := NumPyScalar;
     df_rows :=
       [blank 5; blank 5; line [100; 110; 121; 133];
        line [200; 210; 220; 230]; blank 5; blank 5;
        line [50; 50; 50; 50]; line [20; 20; 30; 20];
        line [300; 303; 306; 309]] |}.

(** What extraction returns on [sheet] and on [flat_sheet]. *)
Definition sheet_assumptions : Assumptions float :=
  {| static_keys := ["Cost of Goods Sold"; "Marketing"];
     avg_growth_rates :=
       {["Product Sales" := 1%float; "Service Sales" := (4 / 100)%float;
         "Staff Salaries" := (1 / 100)%float]};
     initial_values :=
       [("Product Sales", 1%float); ("Service Sales", 200%float);
        ("Cost of Goods Sold", 50%float); ("Marketing", 20%float);
        ("Staff Salaries", 300%float)] |}.

Definition flat_assumptions : Assumptions float :=
  {| static_keys := ["Product Sales"; "Cost of Goods Sold"; "Marketing"];
     avg_growth_rates :=
       {["Service Sales" := (4 / 100)%float;
         "Staff Salaries" := (1 / 100)%float]};
     initial_values :=
       [("Product Sales", 100%float); ("Service Sales", 200%float);
        ("Cost of Goods Sold", 50%float); ("Marketing", 20%float);
        ("Staff Salaries", 300%float)] |}.

(** Assumptions with one static and one growing category that store the
    same initial value, [100.125]. *)
Definition same_initial : Assumptions float :=
  {| static_keys := ["Product Sales"; "Cost of Goods Sold"; "Marketing"];
     avg_growth_rates :=
       {["Service Sales" := 0.5%float; "Staff Salaries" := 0.25%float]};
     initial_values :=
       [("Product Sales", 100.125%float); ("Service Sales", 100.125%float);
        ("Cost of Goods Sold", 50%float); ("Marketing", 20%float);
        ("Staff Salaries", 300%float)] |}.

(** The sheet with other labels, other filler rows, two more columns and
    one more row: the slices of the five rows are those of [sheet]. *)
Definition noisy_line (values : list Z) : list float :=
  7%float :: map float_of_Z values ++ [8%float; 9%float].

Definition noisy_sheet : DataFrame float :=
  {| df_kind := NumPyScalar;
     df_rows :=
       [replicate 16 1%float; replicate 16 2%float;
        noisy_line doubling;
        noisy_line [200; 210; 220; 230; 240; 250; 260; 270; 280; 290; 300; 310; 320];
        replicate 16 3%float; replicate 16 4%float;
        noisy_line [50; 50; 50; 50; 50; 50; 50; 50; 50; 50; 50; 50; 50];
        noisy_line [20; 20; 30; 20; 20; 30; 20; 20; 30; 20; 20; 30; 20];
        noisy_line [300; 303; 306; 309; 312; 315; 318; 321; 324; 327; 330; 333; 336];
        replicate 16 5%float] |}.

(** Nine rows of two columns: a label and one value. *)
Definition thin_sheet : DataFrame float :=
  {| df_kind := NumPyScalar;
     df_rows := replicate 9 [0%float; 100%float] |}.

(** Sections with one value and with none. *)
Definition short_sections : list (string * ndarray float) :=
  [("Product Sales", {| dtype := PyObject; elems := [0%float] |});
   ("Service Sales", {| dtype := PyObject; elems := [] |})].

End Examples.

(** * Properties *)

Section Properties.
Context {num : Type} `{Arith num}.

(** ** The exception monad *)

Lemma bind_Ok {A B} (m : result A) (f : A → result B) b :
  m ≫= f = Ok b ↔ ∃ a, m = Ok a ∧ f a = Ok b.
Proof.
  destruct m as [a|e]; simpl; split.
  - eauto.
  - intros (a' & [= <-] & ?); done.
  - discriminate.
  - intros (? & [=] & _).
Qed.

Lemma mapM_Ok {A B} (f : A → result B) l k :
  mapM f l = Ok k ↔ Forall2 (λ x y, f x = Ok y) l k.
Proof.
  revert k. induction l as [|x l IH]; intros k; simpl.
  - split; [intros [= <-]; constructor | by inversion 1].
  - split.
    + destruct (f x) as [y|] eqn:Hx; simpl; [|discriminate].
      destruct (mapM f l) as [k'|] eqn:Hl; simpl; [|discriminate].
      intros [= <-]. constructor; [done | by apply IH].
    + inversion 1 as [|? y ? k' Hx Hl]; subst. rewrite Hx. simpl.
      apply IH in Hl. by rewrite Hl.
Qed.

Lemma mapM_Err {A B} (f : A → result B) l e :
  mapM f l = Err e → ∃ x, x ∈ l ∧ f x = Err e.
Proof.
  induction l as [|x l IH]; simpl; [discriminate|].
  destruct (f x) as [y|e'] eqn:Hx; simpl.
  - destruct (mapM f l) as [k'|e''] eqn:Hl; simpl; [discriminate|].
    intros [= ->]. destruct IH as (x' & ? & ?); [done|].
    exists x'. split; [by right | done].
  - intros [= ->]. exists x. split; [by left | done].
Qed.

Lemma mapM_total {A B} (f : A → result B) (g : A → B) l :
  (∀ x, x ∈ l → f x = Ok (g x)) → mapM f l = Ok (g <$> l).
Proof.
  intros Hf. apply mapM_Ok. apply Forall2_fmap_r, Forall_Forall2_diag.
  by apply Forall_forall.
Qed.

Lemma mapM_length {A B} (f : A → result B) l k :
  mapM f l = Ok k → length k = length l.
Proof. intros Hk%mapM_Ok. symmetry. by eapply Forall2_length. Qed.

(** ** Slicing: [identify_key_sections] *)

Lemma iloc_row_slice_Ok (df : DataFrame num) r lo hi :
  (r < length (df_rows df))%nat →
  ∃ row, df_rows df !! r = Some row ∧
    iloc_row_slice df r lo hi =
      Ok {| dtype := df_kind df; elems := take (hi - lo) (drop lo row) |}.
Proof.
  intros Hr. destruct (lookup_lt_is_Some_2 (df_rows df) r Hr) as [row Hrow].
  exists row. split; [done|]. unfold iloc_row_slice. by rewrite Hrow.
Qed.

Lemma iloc_row_slice_Err (df : DataFrame num) r lo hi :
  (length (df_rows df) ≤ r)%nat → iloc_row_slice df r lo hi = Err IndexError.
Proof.
  intros Hr. unfold iloc_row_slice. by rewrite (lookup_ge_None_2 _ _ Hr).
Qed.

Lemma identify_key_sections_Ok (df : DataFrame num) :
  (9 ≤ length (df_rows df))%nat →
  ∃ r2 r3 r6 r7 r8,
    df_rows df !! 2%nat = Some r2 ∧ df_rows df !! 3%nat = Some r3 ∧
    df_rows df !! 6%nat = Some r6 ∧ df_rows df !! 7%nat = Some r7 ∧
    df_rows df !! 8%nat = Some r8 ∧
    identify_key_sections df =
      Ok [("Product Sales", slice_of df r2); ("Service Sales", slice_of df r3);
          ("Cost of Goods Sold", slice_of df r6); ("Marketing", slice_of df r7);
          ("Staff Salaries", slice_of df r8)].
Proof.
  intros Hn.
  destruct (iloc_row_slice_Ok df 2 1 14) as (r2 & H2 & E2); [lia|].
  destruct (iloc_row_slice_Ok df 3 1 14) as (r3 & H3 & E3); [lia|].
  destruct (iloc_row_slice_Ok df 6 1 14) as (r6 & H6 & E6); [lia|].
  destruct (iloc_row_slice_Ok df 7 1 14) as (r7 & H7 & E7); [lia|].
  destruct (iloc_row_slice_Ok df 8 1 14) as (r8 & H8 & E8); [lia|].
  exists r2, r3, r6, r7, r8. repeat (split; [done|]).
  unfold identify_key_sections. by rewrite E2, E3, E6, E7, E8.
Qed.

Lemma identify_key_sections_Err (df : DataFrame num) :
  (length (df_rows df) < 9)%nat → identify_key_sections df = Err IndexError.
Proof.
  intros Hn. unfold identify_key_sections.
  destruct (iloc_row_slice df 2 1 14) as [?|e] eqn:E2; simpl;
    [|unfold iloc_row_slice in E2; destruct (df_rows df !! 2%nat); by inversion E2].
  destruct (iloc_row_slice df 3 1 14) as [?|e] eqn:E3; simpl;
    [|unfold iloc_row_slice in E3; destruct (df_rows df !! 3%nat); by inversion E3].
  destruct (iloc_row_slice df 6 1 14) as [?|e] eqn:E6; simpl;
    [|unfold iloc_row_slice in E6; destruct (df_rows df !! 6%nat); by inversion E6].
  destruct (iloc_row_slice df 7 1 14) as [?|e] eqn:E7; simpl;
    [|unfold iloc_row_slice in E7; destruct (df_rows df !! 7%nat); by inversion E7].
  rewrite iloc_row_slice_Err by lia. done.
Qed.

(** ** Growth rates: [calculate_growth_rates] *)

Lemma mapM_Err_intro {A B} (f : A → result B) l e x :
  (∀ y e', y ∈ l → f y = Err e' → e' = e) →
  x ∈ l → f x = Err e → mapM f l = Err e.
Proof.
  intros Hone Hx Hfx. destruct (mapM f l) as [k|e'] eqn:Hl.
  - apply mapM_Ok in Hl. apply list_elem_of_lookup in Hx as [i Hi].
    destruct (Forall2_lookup_l _ _ _ _ _ Hl Hi) as (y & _ & Hy). congruence.
  - destruct (mapM_Err _ _ _ Hl) as (y & Hy & Hfy). f_equal. eauto.
Qed.

Lemma growth_rate_eq (v : ndarray num) i vi vp :
  elems v !! i = Some vi → elems v !! (i - 1)%nat = Some vp →
  growth_rate v i =
    (if division_raises {| dtype := dtype v; elems := [vp; vi] |}
     then Err ZeroDivisionError else Ok (round2 (quot (sub vi vp) vp))).
Proof.
  intros Hi Hp. unfold growth_rate, division_raises, scalar_div, divisors.
  rewrite Hi, Hp. simpl. destruct (dtype v); simpl; [|done].
  rewrite orb_false_r. by destruct (is_zero vp).
Qed.

Lemma lookup_divisors (l : list num) i x :
  divisors l !! i = Some x ↔ l !! i = Some x ∧ (i + 1 < length l)%nat.
Proof.
  unfold divisors. rewrite lookup_take_Some. split; intros [? ?]; split; (done || lia).
Qed.

Lemma lookup_rates_of (l : list num) i vp vi :
  l !! i = Some vp → l !! S i = Some vi →
  rates_of l !! i = Some (round2 (quot (sub vi vp) vp)).
Proof.
  intros Hp Hi. unfold rates_of. rewrite lookup_zip_with, Hp. simpl.
  rewrite lookup_drop. simpl. by rewrite Hi.
Qed.

Lemma length_rates_of (l : list num) : length (rates_of l) = (length l - 1)%nat.
Proof. unfold rates_of. rewrite length_zip_with, length_drop. lia. Qed.

Lemma growth_series_Ok (v : ndarray num) :
  division_raises v = false → growth_series v = Ok (rates_of (elems v)).
Proof.
  intros Hz. unfold growth_series. apply mapM_Ok.
  apply Forall2_same_length_lookup. split.
  { by rewrite length_seq, length_rates_of. }
  intros j i r [-> Hj]%lookup_seq Hr.
  destruct (lookup_lt_is_Some_2 (elems v) j) as [vp Hp]; [lia|].
  destruct (lookup_lt_is_Some_2 (elems v) (S j)) as [vi Hi]; [lia|].
  rewrite (lookup_rates_of _ _ _ _ Hp Hi) in Hr. injection Hr as <-.
  rewrite (growth_rate_eq v (1 + j) vi vp); [|done|by rewrite Nat.add_1_l, Nat.sub_1_r].
  unfold division_raises in *. simpl. destruct (dtype v); [|done].
  rewrite orb_false_r.
  destruct (is_zero vp) eqn:Hvp; [|done].
  assert (existsb is_zero (divisors (elems v)) = true) as Hex; [|congruence].
  apply existsb_exists. exists vp. split; [|done].
  apply list_elem_of_In, list_elem_of_lookup. exists j. apply lookup_divisors. split; [done|lia].
Qed.

Lemma growth_rate_only_zero_division (v : ndarray num) i e :
  i ∈ seq 1 (length (elems v) - 1) → growth_rate v i = Err e → e = ZeroDivisionError.
Proof.
  intros [Hlo Hhi]%elem_of_seq Hr.
  destruct (lookup_lt_is_Some_2 (elems v) (i - 1)) as [vp Hp]; [lia|].
  destruct (lookup_lt_is_Some_2 (elems v) i) as [vi Hi]; [lia|].
  rewrite (growth_rate_eq v i vi vp Hi Hp) in Hr.
  destruct (division_raises _); congruence.
Qed.

Lemma growth_series_Err (v : ndarray num) :
  division_raises v = true → growth_series v = Err ZeroDivisionError.
Proof.
  intros Hz. unfold division_raises in Hz.
  destruct (dtype v) eqn:Hk; [|discriminate].
  apply existsb_exists in Hz as (vp & Hin & Hvp).
  apply list_elem_of_In, list_elem_of_lookup in Hin as [j Hj].
  apply lookup_divisors in Hj as [Hp Hlt].
  destruct (lookup_lt_is_Some_2 (elems v) (S j)) as [vi Hi]; [lia|].
  unfold growth_series.
  apply (mapM_Err_intro _ _ _ (S j)).
  - intros y e' Hy. by apply growth_rate_only_zero_division.
  - apply elem_of_seq. lia.
  - rewrite (growth_rate_eq v (S j) vi vp); [|done|by rewrite Nat.sub_1_r].
    unfold division_raises, divisors. simpl. by rewrite Hk, Hvp.
Qed.

Lemma growth_series_spec (v : ndarray num) :
  growth_series v =
    if division_raises v then Err ZeroDivisionError else Ok (rates_of (elems v)).
Proof.
  destruct (division_raises v) eqn:Hz;
    [by apply growth_series_Err | by apply growth_series_Ok].
Qed.

Lemma calculate_growth_rates_spec (sections : list (string * ndarray num)) :
  calculate_growth_rates sections =
    if existsb (λ kv, division_raises kv.2) sections
    then Err ZeroDivisionError else Ok (growth_of sections).
Proof.
  unfold calculate_growth_rates.
  induction sections as [|kv sections IH]; simpl; [done|].
  rewrite growth_series_spec. destruct (division_raises kv.2); simpl; [done|].
  rewrite IH. by destruct (existsb _ sections).
Qed.

(** ** Averages and initial values: [main_flow] *)

Lemma averages_spec (l : list (string * list num)) :
  mapM (λ kv, m ← mean kv.2; mret (kv.1, round2 m)) l =
    if existsb (λ kv, is_nil kv.2) l
    then Err ZeroDivisionError else Ok (map (λ kv, (kv.1, average kv.2)) l).
Proof.
  induction l as [|[k values] l IH]; simpl; [done|].
  destruct values as [|x values]; simpl; [done|].
  rewrite IH. by destruct (existsb _ l).
Qed.

Lemma has_zero_spec (values : list num) :
  has_zero values = true ↔ ∃ x, x ∈ values ∧ is_zero x = true.
Proof.
  unfold has_zero. rewrite existsb_exists.
  by setoid_rewrite list_elem_of_In.
Qed.

Lemma elem_of_static (growth : list (string * list num)) key :
  key ∈ (filter (λ kv, has_zero kv.2 = true) growth).*1 ↔
  ∃ values, (key, values) ∈ growth ∧ has_zero values = true.
Proof.
  rewrite list_elem_of_fmap. split.
  - intros ([k v] & -> & [Hz Hin]%list_elem_of_filter). eauto.
  - intros (v & Hin & Hz). exists (key, v). split; [done|].
    by apply list_elem_of_filter.
Qed.

Lemma is_static_false (static : list string) key :
  is_static static key = false ↔ key ∉ static.
Proof. unfold is_static. by rewrite bool_decide_eq_false. Qed.

Lemma NoDup_category_names : NoDup category_names.
Proof. compute_done. Qed.

Lemma NoDup_fst_filter {V} (P : string * V → Prop) `{∀ x, Decision (P x)}
    (l : list (string * V)) :
  NoDup l.*1 → NoDup (filter P l).*1.
Proof.
  induction l as [|[k v] l IH]; simpl; [done|].
  rewrite NoDup_cons. intros [Hk Hl].
  rewrite filter_cons. destruct (decide (P (k, v))); [|by apply IH].
  simpl. apply NoDup_cons. split; [|by apply IH].
  intros ([k' v'] & Heq & [_ Hin]%list_elem_of_filter)%list_elem_of_fmap.
  simpl in Heq. subst k'. apply Hk. apply list_elem_of_fmap. by exists (k, v').
Qed.

Lemma NoDup_fst_unique {V} (l : list (string * V)) k v v' :
  NoDup l.*1 → (k, v) ∈ l → (k, v') ∈ l → v = v'.
Proof.
  intros Hnd Hv Hv'.
  apply (elem_of_list_to_map (M:=gmap string) l k v Hnd) in Hv.
  apply (elem_of_list_to_map (M:=gmap string) l k v' Hnd) in Hv'.
  congruence.
Qed.

Lemma main_flow_spec (df : DataFrame num) sections :
  identify_key_sections df = Ok sections →
  main_flow df =
    if existsb (λ kv, division_raises kv.2) sections then Err ZeroDivisionError
    else if existsb (λ kv, is_nil kv.2) (growing_of (growth_of sections))
    then Err ZeroDivisionError
    else
      initial ← mapM (λ kv, v ← from_option IndexError (elems kv.2 !! 0%nat);
                            mret (kv.1, v)) sections;
      mret {| static_keys := static_of (growth_of sections);
              avg_growth_rates :=
                list_to_map (map (λ kv, (kv.1, average kv.2))
                                 (growing_of (growth_of sections)));
              initial_values := initial |}.
Proof.
  intros Hid. unfold main_flow. rewrite Hid. simpl.
  rewrite calculate_growth_rates_spec.
  destruct (existsb _ sections); simpl; [done|].
  fold (static_of (growth_of sections)). fold (growing_of (growth_of sections)).
  rewrite averages_spec. by destruct (existsb _ (growing_of _)).
Qed.

Lemma identify_key_sections_inv (df : DataFrame num) sections :
  identify_key_sections df = Ok sections →
  (9 ≤ length (df_rows df))%nat ∧
  ∃ r2 r3 r6 r7 r8,
    df_rows df !! 2%nat = Some r2 ∧ df_rows df !! 3%nat = Some r3 ∧
    df_rows df !! 6%nat = Some r6 ∧ df_rows df !! 7%nat = Some r7 ∧
    df_rows df !! 8%nat = Some r8 ∧
    sections =
      [("Product Sales", slice_of df r2); ("Service Sales", slice_of df r3);
       ("Cost of Goods Sold", slice_of df r6); ("Marketing", slice_of df r7);
       ("Staff Salaries", slice_of df r8)].
Proof.
  intros Hid. destruct (decide (length (df_rows df) < 9)%nat) as [Hlt|Hge].
  { rewrite identify_key_sections_Err in Hid by done. discriminate. }
  split; [lia|].
  destruct (identify_key_sections_Ok df) as (r2 & r3 & r6 & r7 & r8 & ? & ? & ? & ? & ? & Heq);
    [lia|].
  exists r2, r3, r6, r7, r8. repeat (split; [done|]). congruence.
Qed.

Lemma identify_key_sections_keys (df : DataFrame num) sections :
  identify_key_sections df = Ok sections → sections.*1 = category_names.
Proof.
  intros (_ & r2 & r3 & r6 & r7 & r8 & _ & _ & _ & _ & _ & ->)%identify_key_sections_inv.
  done.
Qed.

Lemma growth_of_keys (sections : list (string * ndarray num)) :
  (growth_of sections).*1 = sections.*1.
Proof. unfold growth_of. by rewrite <- list_fmap_compose. Qed.

Lemma elem_of_growing (growth : list (string * list num)) key values :
  (key, values) ∈ growing_of growth ↔
  (key, values) ∈ growth ∧ key ∉ static_of growth.
Proof.
  unfold growing_of. rewrite list_elem_of_filter. simpl.
  rewrite is_static_false. tauto.
Qed.

Lemma static_of_subseteq (growth : list (string * list num)) :
  static_of growth ⊆ growth.*1.
Proof.
  intros key (values & Hin & _)%elem_of_static.
  apply list_elem_of_fmap. by exists (key, values).
Qed.

Lemma dom_averages (growth : list (string * list num)) :
  dom (list_to_map (M:=gmap string num)
         (map (λ kv, (kv.1, average kv.2)) (growing_of growth))) =
  list_to_set growth.*1 ∖ list_to_set (static_of growth).
Proof.
  rewrite dom_list_to_map_L. apply set_eq. intros key.
  rewrite elem_of_difference, !elem_of_list_to_set.
  rewrite <- list_fmap_compose. rewrite !list_elem_of_fmap. split.
  - intros ([k v] & -> & [Hin Hns]%elem_of_growing). split; [|done].
    by exists (k, v).
  - intros [([k v] & -> & Hin) Hns]. exists (k, v). split; [done|].
    by apply elem_of_growing.
Qed.

Lemma lookup_averages (growth : list (string * list num)) key values :
  NoDup growth.*1 → (key, values) ∈ growth → key ∉ static_of growth →
  list_to_map (M:=gmap string num)
    (map (λ kv, (kv.1, average kv.2)) (growing_of growth)) !! key =
  Some (average values).
Proof.
  intros Hnd Hin Hns. apply elem_of_list_to_map.
  - rewrite <- list_fmap_compose. by apply (NoDup_fst_filter _ growth).
  - apply (list_elem_of_fmap_2 (λ kv, (kv.1, average kv.2)) _ (key, values)).
    by apply elem_of_growing.
Qed.

Lemma main_flow_inv (df : DataFrame num) a :
  main_flow df = Ok a →
  ∃ sections initial,
    identify_key_sections df = Ok sections ∧
    calculate_growth_rates sections = Ok (growth_of sections) ∧
    existsb (λ kv, is_nil kv.2) (growing_of (growth_of sections)) = false ∧
    mapM (λ kv, v ← from_option IndexError (elems kv.2 !! 0%nat);
                mret (kv.1, v)) sections = Ok initial ∧
    a = {| static_keys := static_of (growth_of sections);
           avg_growth_rates :=
             list_to_map (map (λ kv, (kv.1, average kv.2))
                              (growing_of (growth_of sections)));
           initial_values := initial |}.
Proof.
  intros Hmain.
  destruct (identify_key_sections df) as [sections|e] eqn:Hid;
    [|unfold main_flow in Hmain; rewrite Hid in Hmain; discriminate].
  rewrite (main_flow_spec df sections Hid) in Hmain.
  pose proof (calculate_growth_rates_spec sections) as Hcalc.
  destruct (existsb _ sections); [discriminate|].
  destruct (existsb _ (growing_of _)) eqn:Hnil; [discriminate|].
  apply bind_Ok in Hmain as (initial & Hinit & [= <-]).
  by exists sections, initial.
Qed.

Lemma main_flow_static_averages_dom (df : DataFrame num) a :
  main_flow df = Ok a →
  dom (avg_growth_rates a) =
    list_to_set category_names ∖ list_to_set (static_keys a).
Proof.
  intros (sections & initial & Hid & _ & _ & _ & ->)%main_flow_inv.
  cbn [static_keys avg_growth_rates].
  rewrite <- (identify_key_sections_keys df sections Hid), <- growth_of_keys.
  apply dom_averages.
Qed.

(** C2.  When extraction succeeds, a category is in [static_keys] exactly
    when some entry of its rounded growth series equals [0.0]; the static
    keys are among the five category names; the keys of [avg_growth_rates]
    are the category names that are not static; and each average is
    [round(sum(series) / len(series), 2)] of the rounded series. *)
Theorem main_flow_static_and_averages (df : DataFrame num) a :
  main_flow df = Ok a →
  ∃ sections growth,
    identify_key_sections df = Ok sections ∧
    calculate_growth_rates sections = Ok growth ∧
    growth.*1 = category_names ∧
    (∀ key series, (key, series) ∈ growth →
       (key ∈ static_keys a ↔ ∃ x, x ∈ series ∧ is_zero x = true)) ∧
    static_keys a ⊆ category_names ∧
    dom (avg_growth_rates a) =
      list_to_set category_names ∖ list_to_set (static_keys a) ∧
    (∀ key series, (key, series) ∈ growth → key ∉ static_keys a →
       avg_growth_rates a !! key =
         Some (round2 (quot (foldl add (of_Z 0) series)
                            (of_Z (Z.of_nat (length series)))))).
Proof.
  intros (sections & initial & Hid & Hcalc & _ & _ & ->)%main_flow_inv.
  exists sections, (growth_of sections).
  cbn [static_keys avg_growth_rates initial_values].
  assert ((growth_of sections).*1 = category_names) as Hkeys.
  { rewrite growth_of_keys. by apply (identify_key_sections_keys df). }
  assert (NoDup (growth_of sections).*1) as Hnd.
  { rewrite Hkeys. apply NoDup_category_names. }
  split; [done|]. split; [done|]. split; [done|]. split; [|split; [|split]].
  - intros key series Hin. split.
    + intros (series' & Hin' & Hz)%elem_of_static.
      rewrite (NoDup_fst_unique _ _ _ _ Hnd Hin Hin'). by apply has_zero_spec.
    + intros Hz. apply elem_of_static. exists series. split; [done|].
      by apply has_zero_spec.
  - rewrite <- Hkeys. apply static_of_subseteq.
  - rewrite <- Hkeys. apply dom_averages.
  - intros key series Hin Hns. by apply lookup_averages.
Qed.

(** ** Tables of the expected shape *)

Lemma mapM_Ok_exists {A B} (f : A → result B) l :
  (∀ x, x ∈ l → ∃ y, f x = Ok y) → ∃ k, mapM f l = Ok k.
Proof.
  induction l as [|x l IH]; intros Hf; simpl; [by eexists|].
  destruct (Hf x) as [y Hy]; [by left|]. rewrite Hy. simpl.
  destruct IH as [k Hk]; [intros; apply Hf; by right|].
  rewrite Hk. simpl. by eexists.
Qed.

Lemma length_slice_of (df : DataFrame num) row :
  length (elems (slice_of df row)) = ((length row - 1) `min` 13)%nat.
Proof. simpl. rewrite length_take, length_drop. lia. Qed.

Lemma divisors_slice_of (df : DataFrame num) row :
  (14 ≤ length row)%nat →
  divisors (elems (slice_of df row)) = take 12 (drop 1 row).
Proof.
  intros Hrow. unfold divisors. rewrite length_slice_of.
  replace ((length row - 1) `min` 13 - 1)%nat with 12%nat by lia.
  simpl. rewrite take_take. done.
Qed.

Lemma division_raises_slice_of (df : DataFrame num) row :
  (14 ≤ length row)%nat →
  division_raises (slice_of df row) =
    match df_kind df with
    | PyObject => existsb is_zero (take 12 (drop 1 row))
    | NumPyScalar => false
    end.
Proof.
  intros Hrow. unfold division_raises.
  rewrite divisors_slice_of by done. done.
Qed.

Lemma well_shaped_sections (df : DataFrame num) :
  well_shaped df →
  ∃ r2 r3 r6 r7 r8,
    (df_rows df !! 2%nat = Some r2 ∧ df_rows df !! 3%nat = Some r3 ∧
     df_rows df !! 6%nat = Some r6 ∧ df_rows df !! 7%nat = Some r7 ∧
     df_rows df !! 8%nat = Some r8) ∧
    (14 ≤ length r2 ∧ 14 ≤ length r3 ∧ 14 ≤ length r6 ∧ 14 ≤ length r7 ∧
     14 ≤ length r8)%nat ∧
    identify_key_sections df =
      Ok [("Product Sales", slice_of df r2); ("Service Sales", slice_of df r3);
          ("Cost of Goods Sold", slice_of df r6); ("Marketing", slice_of df r7);
          ("Staff Salaries", slice_of df r8)].
Proof.
  intros [Hrows Hcols].
  destruct (identify_key_sections_Ok df Hrows)
    as (r2 & r3 & r6 & r7 & r8 & H2 & H3 & H6 & H7 & H8 & Hid).
  exists r2, r3, r6, r7, r8. split; [done|]. split; [|done].
  rewrite Forall_lookup in Hcols.
  repeat split; by eapply Hcols.
Qed.

Lemma raises_on_zero_sections (df : DataFrame num) r2 r3 r6 r7 r8 :
  df_rows df !! 2%nat = Some r2 → df_rows df !! 3%nat = Some r3 →
  df_rows df !! 6%nat = Some r6 → df_rows df !! 7%nat = Some r7 →
  df_rows df !! 8%nat = Some r8 →
  (14 ≤ length r2 ∧ 14 ≤ length r3 ∧ 14 ≤ length r6 ∧ 14 ≤ length r7 ∧
   14 ≤ length r8)%nat →
  existsb (λ kv : string * ndarray num, division_raises kv.2)
    [("Product Sales", slice_of df r2); ("Service Sales", slice_of df r3);
     ("Cost of Goods Sold", slice_of df r6); ("Marketing", slice_of df r7);
     ("Staff Salaries", slice_of df r8)] = raises_on_zero df.
Proof.
  intros H2 H3 H6 H7 H8 (L2 & L3 & L6 & L7 & L8).
  cbn [existsb snd]. rewrite !division_raises_slice_of by done.
  unfold raises_on_zero, zero_divisor, category_rows. cbn [existsb].
  rewrite H2, H3, H6, H7, H8. by destruct (df_kind df).
Qed.

Lemma initial_values_Ok (sections : list (string * ndarray num)) :
  (∀ kv, kv ∈ sections → elems kv.2 ≠ []) →
  ∃ initial,
    mapM (λ kv, v ← from_option IndexError (elems kv.2 !! 0%nat);
                mret (kv.1, v)) sections = Ok initial.
Proof.
  intros Hne. apply mapM_Ok_exists. intros [k v] Hin.
  specialize (Hne _ Hin). simpl in *.
  destruct (elems v) as [|x l]; [done|]. simpl. by eexists.
Qed.

Lemma rates_of_nil (l : list num) : is_nil (rates_of l) = false → l ≠ [].
Proof. by destruct l. Qed.

Lemma has_zero_not_nil (l : list num) : has_zero l = true → is_nil l = false.
Proof. by destruct l. Qed.

(** Once the five rows exist, extraction raises nothing but
    [ZeroDivisionError]. *)
Lemma main_flow_cases (df : DataFrame num) :
  (9 ≤ length (df_rows df))%nat →
  main_flow df = Err ZeroDivisionError ∨ ∃ a, main_flow df = Ok a.
Proof.
  intros Hrows.
  destruct (identify_key_sections_Ok df Hrows)
    as (r2 & r3 & r6 & r7 & r8 & _ & _ & _ & _ & _ & Hid).
  rewrite (main_flow_spec df _ Hid).
  set (sections := [("Product Sales", slice_of df r2); _; _; _; _]) in *.
  destruct (existsb _ sections); [by left|].
  destruct (existsb _ (growing_of _)) eqn:Hnil; [by left|]. right.
  assert (NoDup (growth_of sections).*1) as Hnd.
  { rewrite growth_of_keys. apply NoDup_category_names. }
  destruct (initial_values_Ok sections) as [initial Hinit].
  - intros [k v] Hin. simpl. apply rates_of_nil.
    assert ((k, rates_of (elems v)) ∈ growth_of sections) as Hg.
    { by apply (list_elem_of_fmap_2 (λ kv, (kv.1, rates_of (elems kv.2))) _ (k, v)). }
    destruct (decide (k ∈ static_of (growth_of sections))) as [Hs|Hs].
    + apply elem_of_static in Hs as (series & Hin' & Hz).
      rewrite (NoDup_fst_unique _ _ _ _ Hnd Hg Hin'). by apply has_zero_not_nil.
    + destruct (is_nil (rates_of (elems v))) eqn:Hv; [|done].
      assert (existsb (λ kv : string * list num, is_nil kv.2)
                (growing_of (growth_of sections)) = true) as Hex; [|congruence].
      apply existsb_exists. exists (k, rates_of (elems v)). split; [|done].
      apply list_elem_of_In. by apply elem_of_growing.
  - rewrite Hinit. simpl. by eexists.
Qed.

Lemma rates_of_entries (l : list num) :
  length (rates_of l) = (length l - 1)%nat ∧
  ∀ i, (1 ≤ i < length l)%nat →
    ∃ vi vp, l !! i = Some vi ∧ l !! (i - 1)%nat = Some vp ∧
             rates_of l !! (i - 1)%nat = Some (round2 (quot (sub vi vp) vp)).
Proof.
  split; [apply length_rates_of|]. intros i Hi.
  destruct (lookup_lt_is_Some_2 l i) as [vi Hvi]; [lia|].
  destruct (lookup_lt_is_Some_2 l (i - 1)) as [vp Hvp]; [lia|].
  exists vi, vp. repeat split; try done.
  apply lookup_rates_of; [done|]. by replace (S (i - 1)) with i by lia.
Qed.

(** C8.  For a table of the expected shape in which none of the first 12
    values of a category row is zero, every category has a historical row
    of 13 values [v] and a growth series of 12 entries, and entry [i]
    (for [i] from 1 to 12) is [round((v[i] - v[i-1]) / v[i-1], 2)]. *)
Theorem growth_series_entries (df : DataFrame num) :
  well_shaped df → zero_divisor df = false →
  ∃ sections growth,
    identify_key_sections df = Ok sections ∧
    calculate_growth_rates sections = Ok growth ∧
    sections.*1 = category_names ∧
    Forall2 (λ (s : string * ndarray num) (g : string * list num),
      g.1 = s.1 ∧ length (elems s.2) = 13%nat ∧
      length g.2 = (length (elems s.2) - 1)%nat ∧ length g.2 = 12%nat ∧
      ∀ i, (1 ≤ i ≤ 12)%nat →
        ∃ vi vp, elems s.2 !! i = Some vi ∧ elems s.2 !! (i - 1)%nat = Some vp ∧
                 g.2 !! (i - 1)%nat = Some (round2 (quot (sub vi vp) vp)))
      sections growth.
Proof.
  intros Hshape Hzero.
  destruct (well_shaped_sections df Hshape)
    as (r2 & r3 & r6 & r7 & r8 & (H2 & H3 & H6 & H7 & H8) & Hlen & Hid).
  pose proof (raises_on_zero_sections df _ _ _ _ _ H2 H3 H6 H7 H8 Hlen) as Hraise.
  assert (raises_on_zero df = false) as Hno.
  { unfold raises_on_zero. by destruct (df_kind df). }
  eexists _, _. split; [exact Hid|]. split.
  { rewrite calculate_growth_rates_spec, Hraise, Hno. done. }
  split; [done|].
  destruct Hlen as (L2 & L3 & L6 & L7 & L8).
  assert (∀ row, (14 ≤ length row)%nat →
    length (elems (slice_of df row)) = 13%nat ∧
    length (rates_of (elems (slice_of df row)))
      = (length (elems (slice_of df row)) - 1)%nat ∧
    length (rates_of (elems (slice_of df row))) = 12%nat ∧
    ∀ i, (1 ≤ i ≤ 12)%nat →
      ∃ vi vp, elems (slice_of df row) !! i = Some vi ∧
               elems (slice_of df row) !! (i - 1)%nat = Some vp ∧
               rates_of (elems (slice_of df row)) !! (i - 1)%nat
                 = Some (round2 (quot (sub vi vp) vp))) as Hrow.
  { intros row Hrow.
    pose proof (length_slice_of df row) as Hl.
    destruct (rates_of_entries (elems (slice_of df row))) as [Hlr Hent].
    split; [lia|]. split; [done|]. split; [lia|].
    intros i Hi. apply Hent. lia. }
  unfold growth_of. cbn [map fst snd].
  repeat (apply Forall2_cons; split;
    [cbv beta; cbn [fst snd]; split; [done|by apply Hrow]|]).
  apply Forall2_nil_2.
Qed.

Lemma slice_growth_entries (df : DataFrame num) row i :
  (14 ≤ length row)%nat → (1 ≤ i ≤ 12)%nat →
  ∃ vi vp,
    elems (slice_of df row) !! i = Some vi ∧
    elems (slice_of df row) !! (i - 1)%nat = Some vp ∧
    rates_of (elems (slice_of df row)) !! (i - 1)%nat =
      Some (round2 (quot (sub vi vp) vp)).
Proof.
  intros Hrow Hi. pose proof (length_slice_of df row) as Hl.
  destruct (rates_of_entries (elems (slice_of df row))) as [_ Hent].
  apply Hent. lia.
Qed.

(** C7, as the program has it.  For a table of the expected shape: when
    the cells are Python objects and one of the first 12 values of a
    category row is zero, the growth-rate computation and the extraction
    raise [ZeroDivisionError]; when the cells are NumPy scalars, or no such
    value is zero, the growth-rate computation and the extraction return,
    and each rate [i], also one whose divisor is zero, is
    [round(q, 2)] of the quotient [q] that the division of
    [v[i] - v[i-1]] by [v[i-1]] gives. *)
Theorem extraction_zero_division (df : DataFrame num) :
  well_shaped df →
  ∃ sections,
    identify_key_sections df = Ok sections ∧
    (df_kind df = PyObject → zero_divisor df = true →
       calculate_growth_rates sections = Err ZeroDivisionError ∧
       main_flow df = Err ZeroDivisionError) ∧
    (df_kind df = NumPyScalar ∨ zero_divisor df = false →
       (∃ growth,
          calculate_growth_rates sections = Ok growth ∧
          Forall2 (λ (s : string * ndarray num) (g : string * list num),
            g.1 = s.1 ∧
            ∀ i, (1 ≤ i ≤ 12)%nat →
              ∃ vi vp,
                elems s.2 !! i = Some vi ∧
                elems s.2 !! (i - 1)%nat = Some vp ∧
                g.2 !! (i - 1)%nat = Some (round2 (quot (sub vi vp) vp)))
            sections growth) ∧
       ∃ a, main_flow df = Ok a).
Proof.
  intros Hshape.
  destruct (well_shaped_sections df Hshape)
    as (r2 & r3 & r6 & r7 & r8 & (H2 & H3 & H6 & H7 & H8) & Hlen & Hid).
  pose proof (raises_on_zero_sections df _ _ _ _ _ H2 H3 H6 H7 H8 Hlen) as Hraise.
  eexists. split; [exact Hid|]. split.
  - intros Hk Hz.
    assert (raises_on_zero df = true) as Hr by (unfold raises_on_zero; by rewrite Hk).
    rewrite (main_flow_spec df _ Hid), calculate_growth_rates_spec, Hraise, Hr. done.
  - intros Hno.
    assert (raises_on_zero df = false) as Hr.
    { unfold raises_on_zero. destruct Hno as [-> | ->]; [done|by destruct (df_kind df)]. }
    destruct Hlen as (L2 & L3 & L6 & L7 & L8).
    split.
    { exists (growth_of
        [("Product Sales", slice_of df r2); ("Service Sales", slice_of df r3);
         ("Cost of Goods Sold", slice_of df r6); ("Marketing", slice_of df r7);
         ("Staff Salaries", slice_of df r8)]).
      split; [by rewrite calculate_growth_rates_spec, Hraise, Hr|].
      unfold growth_of. cbn [map fst snd].
      repeat (apply Forall2_cons; split;
        [cbv beta; cbn [fst snd]; split; [done|];
         intros i Hi; by apply slice_growth_entries|]).
      apply Forall2_nil_2. }
    rewrite (main_flow_spec df _ Hid), Hraise, Hr.
    assert (∀ l : list (string * list num),
      Forall (λ kv, length kv.2 = 12%nat) l →
      existsb (λ kv : string * list num, is_nil kv.2) l = false) as Hnn.
    { induction 1 as [|[k [|x v]] l Hk ? IH]; simpl in *; done. }
    rewrite Hnn.
    + edestruct initial_values_Ok as [initial ->]; [|by eexists].
      intros [k v]. rewrite !elem_of_cons, elem_of_nil.
      intros [[= -> ->]|[[= -> ->]|[[= -> ->]|[[= -> ->]|[[= -> ->]|[]]]]]];
        cbn [snd]; intros Hnil%(f_equal length);
        rewrite length_slice_of in Hnil; simpl in Hnil; lia.
    + apply Forall_forall. intros [k v] [Hin _]%elem_of_growing.
      unfold growth_of in Hin. cbn [map fst snd] in Hin.
      assert (∀ row, (14 ≤ length row)%nat →
                length (rates_of (elems (slice_of df row))) = 12%nat) as Hl.
      { intros row Hrow. rewrite length_rates_of, length_slice_of. lia. }
      rewrite !elem_of_cons, elem_of_nil in Hin.
      destruct Hin as [[= -> ->]|[[= -> ->]|[[= -> ->]|[[= -> ->]|[[= -> ->]|[]]]]]];
        simpl; by apply Hl.
Qed.

(** C6, as the program has it.  Extraction raises [IndexError] exactly
    when the table has fewer than 9 rows.  With at least 9 rows the slicing
    step succeeds whatever the number of columns: the slice [1:14] is cut
    to the columns present, so a table with [ncols] columns gives
    [min (ncols - 1) 13] values per category, which is 13 values from 14
    columns on. *)
Theorem extraction_index_error (ncols : nat) (df : DataFrame num) :
  rectangular ncols df →
  (identify_key_sections df = Err IndexError ↔ (length (df_rows df) < 9)%nat) ∧
  (main_flow df = Err IndexError ↔ (length (df_rows df) < 9)%nat) ∧
  ((9 ≤ length (df_rows df))%nat →
     ∃ sections,
       identify_key_sections df = Ok sections ∧
       sections.*1 = category_names ∧
       Forall (λ kv, length (elems kv.2) = ((ncols - 1) `min` 13)%nat) sections ∧
       ((14 ≤ ncols)%nat → Forall (λ kv, length (elems kv.2) = 13%nat) sections)).
Proof.
  intros Hrect. split; [|split].
  - split; [|apply identify_key_sections_Err].
    intros Herr. destruct (decide (length (df_rows df) < 9)%nat); [done|].
    destruct (identify_key_sections_Ok df) as (? & ? & ? & ? & ? & _ & _ & _ & _ & _ & Hid);
      [lia|congruence].
  - split.
    + intros Herr. destruct (decide (length (df_rows df) < 9)%nat); [done|].
      destruct (main_flow_cases df) as [Hz|[a Ha]]; [lia|congruence|congruence].
    + intros Hlt. unfold main_flow. by rewrite identify_key_sections_Err.
  - intros Hrows.
    destruct (identify_key_sections_Ok df Hrows)
      as (r2 & r3 & r6 & r7 & r8 & H2 & H3 & H6 & H7 & H8 & Hid).
    eexists. split; [exact Hid|]. split; [done|].
    unfold rectangular in Hrect. rewrite Forall_lookup in Hrect.
    assert (Forall (λ kv : string * ndarray num,
              length (elems kv.2) = ((ncols - 1) `min` 13)%nat)
              [("Product Sales", slice_of df r2); ("Service Sales", slice_of df r3);
               ("Cost of Goods Sold", slice_of df r6); ("Marketing", slice_of df r7);
               ("Staff Salaries", slice_of df r8)]) as Hall.
    { repeat (apply Forall_cons; split;
        [cbn [snd]; rewrite length_slice_of; by erewrite Hrect|]).
      apply Forall_nil_2. }
    split; [done|]. intros Hcols.
    eapply Forall_impl; [exact Hall|]. intros kv Hkv. simpl in *. lia.
Qed.

(** ** The projection: [build_new_df] *)

Lemma assoc_set_row_eq label v (rs : list (string * list num)) :
  assoc label (set_row label v rs) = Some v.
Proof.
  induction rs as [|[l w] rs IH]; simpl.
  - by rewrite decide_True.
  - destruct (decide (label = l)) as [->|Hne]; simpl.
    + by rewrite decide_True.
    + by rewrite decide_False.
Qed.

Lemma assoc_set_row_ne label label' v (rs : list (string * list num)) :
  label ≠ label' → assoc label' (set_row label v rs) = assoc label' rs.
Proof.
  intros Hne. induction rs as [|[l w] rs IH]; simpl.
  - by rewrite decide_False.
  - destruct (decide (label = l)) as [->|Hne']; simpl.
    + by rewrite !decide_False.
    + destruct (decide (label' = l)); [done|]. apply IH.
Qed.

Lemma project_row_static static rates periods key (iv : num) :
  is_static static key = true →
  project_row static rates periods key iv =
    Ok (replicate (Z.to_nat (periods + 1)) iv).
Proof. intros Hs. unfold project_row. by rewrite Hs. Qed.

Lemma project_row_growing static rates periods key (iv : num) rate :
  is_static static key = false → rates !! key = Some rate →
  project_row static rates periods key iv = compound iv rate periods.
Proof. intros Hs Hr. unfold project_row, compound. by rewrite Hs, Hr. Qed.

Lemma project_row_negative static rates periods key (iv : num) :
  periods < 0 → project_row static rates periods key iv = Ok [].
Proof.
  intros Hneg. unfold project_row.
  replace (Z.to_nat (periods + 1)) with 0%nat by lia.
  rewrite seqZ_nil by lia. by destruct (is_static static key).
Qed.

Lemma project_row_length static rates periods key (iv : num) r :
  project_row static rates periods key iv = Ok r →
  length r = Z.to_nat (periods + 1).
Proof.
  unfold project_row. destruct (is_static static key).
  - intros [= <-]. by rewrite length_replicate.
  - intros Hr%mapM_length. by rewrite Hr, length_seqZ.
Qed.

Lemma length_compound (iv rate : num) periods series :
  compound iv rate periods = Ok series →
  length series = Z.to_nat (periods + 1).
Proof. intros Hs%mapM_length. by rewrite Hs, length_seqZ. Qed.

Lemma lookup_compound (iv rate : num) periods series p :
  compound iv rate periods = Ok series → 0 ≤ p ≤ periods →
  ∃ power, pow (add (of_Z 1) rate) p = Some power ∧
           series !! Z.to_nat p = Some (round2 (mul iv power)).
Proof.
  intros Hs%mapM_Ok Hp.
  assert (seqZ 0 (periods + 1) !! Z.to_nat p = Some p) as Hseq.
  { rewrite lookup_seqZ_lt by lia. f_equal. lia. }
  destruct (Forall2_lookup_l _ _ _ _ _ Hs Hseq) as (cell & Hcell & Hf).
  destruct (pow (add (of_Z 1) rate) p) as [power|]; [|discriminate].
  injection Hf as <-. by exists power.
Qed.

Lemma compound_returns (iv rate : num) periods :
  (∀ p, 0 ≤ p ≤ periods → is_Some (pow (add (of_Z 1) rate) p)) →
  ∃ series, compound iv rate periods = Ok series.
Proof.
  intros Hpow. apply mapM_Ok_exists. intros p [Hlo Hhi]%elem_of_seqZ.
  destruct (Hpow p) as [power ->]; [lia|]. by eexists.
Qed.

Lemma compound_Err (iv rate : num) periods e :
  compound iv rate periods = Err e →
  e = OverflowError ∧
  ∃ p, 0 ≤ p ≤ periods ∧ pow (add (of_Z 1) rate) p = None.
Proof.
  intros (p & [Hlo Hhi]%elem_of_seqZ & Hf)%mapM_Err.
  destruct (pow (add (of_Z 1) rate) p) eqn:Hp; [discriminate|].
  injection Hf as <-. split; [done|]. exists p. split; [lia|done].
Qed.

Lemma compound_overflow (iv rate : num) periods p :
  0 ≤ p ≤ periods → pow (add (of_Z 1) rate) p = None →
  compound iv rate periods = Err OverflowError.
Proof.
  intros Hp Hnone. destruct (compound iv rate periods) as [series|e] eqn:Hc.
  - destruct (lookup_compound _ _ _ _ p Hc Hp) as (power & Hsome & _). congruence.
  - by apply compound_Err in Hc as [-> _].
Qed.

Lemma length_month_labels periods :
  length (month_labels periods) = S (Z.to_nat periods).
Proof. unfold month_labels. simpl. by rewrite length_map, length_seqZ. Qed.

Lemma frame_columns (data : list (string * list num)) periods :
  Forall (λ kv, length kv.2 = Z.to_nat (periods + 1)) data →
  transposed_frame data ≫= set_columns (month_labels periods) =
    if (periods <? 0) || is_nil data then Err ValueError
    else Ok {| columns := month_labels periods; rows := data |}.
Proof.
  intros Hlen. destruct data as [|[k v] data]; simpl.
  - unfold set_columns. simpl. by rewrite orb_true_r.
  - rewrite orb_false_r.
    replace (forallb _ data) with true; cycle 1.
    { symmetry. apply forallb_forall. intros kv Hin%list_elem_of_In.
      apply Nat.eqb_eq. rewrite Forall_cons in Hlen. destruct Hlen as [Hv Hd].
      rewrite Forall_forall in Hd. simpl in Hv. rewrite Hv. by apply Hd. }
    rewrite Nat.eqb_refl. cbn [andb]. unfold mbind, result_bind, set_columns.
    cbn [fst snd]. rewrite length_month_labels.
    inversion Hlen as [|?? Hv _]; subst. simpl in Hv. rewrite Hv.
    destruct (Z.ltb_spec periods 0).
    + rewrite decide_False by lia. done.
    + rewrite decide_True by lia. done.
Qed.

Lemma projected_lengths static rates (initial : list (string * num)) periods data :
  mapM (λ kv, r ← project_row static rates periods kv.1 kv.2; mret (kv.1, r))
       initial = Ok data →
  data.*1 = initial.*1 ∧
  Forall (λ kv, length kv.2 = Z.to_nat (periods + 1)) data.
Proof.
  intros Hdata%mapM_Ok. induction Hdata as [|[k iv] [k' r] initial data Hr _ IH].
  - by split.
  - apply bind_Ok in Hr as (r' & Hr & [= <- <-]). destruct IH as [IH1 IH2].
    split; [rewrite !fmap_cons; cbn [fst]; by f_equal|].
    constructor; [|done]. simpl. by eapply project_row_length.
Qed.

Lemma build_table_spec static rates (initial : list (string * num)) periods data :
  mapM (λ kv, r ← project_row static rates periods kv.1 kv.2; mret (kv.1, r))
       initial = Ok data →
  build_table static rates initial periods =
    if (periods <? 0) || is_nil data then Err ValueError
    else
      ps ← from_option KeyError (assoc "Product Sales" data);
      ss ← from_option KeyError (assoc "Service Sales" data);
      cogs ← from_option KeyError (assoc "Cost of Goods Sold" data);
      mk ← from_option KeyError (assoc "Marketing" data);
      st ← from_option KeyError (assoc "Staff Salaries" data);
      mret (table_of periods ps ss cogs mk st).
Proof.
  intros Hdata. unfold build_table. rewrite Hdata. simpl.
  destruct (projected_lengths _ _ _ _ _ Hdata) as [_ Hlen].
  pose proof (frame_columns data periods Hlen) as Hframe.
  destruct ((periods <? 0) || is_nil data);
    destruct (transposed_frame data) as [frame|e] eqn:Hf; simpl in Hframe |- *;
    try congruence; rewrite Hframe; [done|]. simpl.
  unfold loc, set_loc. simpl.
  destruct (assoc "Product Sales" data) as [ps|] eqn:Hps; simpl; [|done].
  destruct (assoc "Service Sales" data) as [ss|] eqn:Hss; simpl; [|done].
  rewrite !(assoc_set_row_ne "Total Sales") by done.
  destruct (assoc "Cost of Goods Sold" data) as [cogs|] eqn:Hcogs; simpl; [|done].
  destruct (assoc "Marketing" data) as [mk|] eqn:Hmk; simpl; [|done].
  destruct (assoc "Staff Salaries" data) as [st|] eqn:Hst; simpl; [|done].
  rewrite (assoc_set_row_ne "Total Operating Expenses" "Total Sales") by done.
  rewrite !assoc_set_row_eq. simpl.
  unfold reindex, insert_category, table_of. simpl. do 2 f_equal.
  repeat first [ rewrite assoc_set_row_eq | rewrite assoc_set_row_ne by done ].
  by rewrite Hps, Hss, Hcogs, Hmk, Hst.
Qed.

Lemma override_rates_lookup (rates : gmap string num) x y :
  override_rates rates x y !! "Product Sales" = Some (quot (of_Z x) (of_Z 100)) ∧
  override_rates rates x y !! "Service Sales" = Some (quot (of_Z y) (of_Z 100)) ∧
  ∀ key, key ≠ "Product Sales" → key ≠ "Service Sales" →
         override_rates rates x y !! key = rates !! key.
Proof.
  unfold override_rates. split; [|split].
  - rewrite lookup_insert_ne by done. apply lookup_insert_eq.
  - apply lookup_insert_eq.
  - intros key Hp Hs. by rewrite !lookup_insert_ne.
Qed.

Lemma override_rates_idemp (rates : gmap string num) x y :
  override_rates (override_rates rates x y) x y = override_rates rates x y.
Proof.
  apply map_eq. intros key.
  destruct (override_rates_lookup rates x y) as (Hp & Hs & Ho).
  destruct (override_rates_lookup (override_rates rates x y) x y) as (Hp' & Hs' & Ho').
  destruct (decide (key = "Product Sales")) as [->|Hnp]; [congruence|].
  destruct (decide (key = "Service Sales")) as [->|Hns]; [congruence|].
  by apply Ho'.
Qed.

Lemma dom_override_rates (rates : gmap string num) x y :
  dom (override_rates rates x y) =
    {["Product Sales"; "Service Sales"]} ∪ dom rates.
Proof.
  unfold override_rates. rewrite !dom_insert_L. apply set_eq. intros key.
  rewrite !elem_of_union, !elem_of_singleton. tauto.
Qed.

Lemma rate_defined (a : Assumptions num) x y key :
  well_formed a → key ∈ category_names → key ∉ static_keys a →
  is_Some (override_rates (avg_growth_rates a) x y !! key).
Proof.
  intros [_ Hwf] Hkey Hns.
  destruct (override_rates_lookup (avg_growth_rates a) x y) as (Hp & Hs & Ho).
  destruct (decide (key = "Product Sales")) as [->|Hnp]; [by eexists|].
  destruct (decide (key = "Service Sales")) as [->|Hnss]; [by eexists|].
  rewrite Ho by done. apply Hwf; [|done].
  unfold category_names in Hkey.
  rewrite !elem_of_cons in Hkey.
  destruct Hkey as [->|[->|[->|[->|[->|Hnil]]]]];
    [done|done|compute_done|compute_done|compute_done|].
  by apply elem_of_nil in Hnil.
Qed.

Lemma well_formed_initial (a : Assumptions num) :
  well_formed a →
  ∃ i1 i2 i3 i4 i5,
    initial_values a =
      [("Product Sales", i1); ("Service Sales", i2);
       ("Cost of Goods Sold", i3); ("Marketing", i4); ("Staff Salaries", i5)].
Proof.
  intros [Hkeys _]. unfold category_names in Hkeys.
  destruct (initial_values a) as [|[k1 i1] [|[k2 i2] [|[k3 i3] [|[k4 i4]
    [|[k5 i5] [|? ?]]]]]]; try discriminate.
  injection Hkeys as -> -> -> -> ->. by exists i1, i2, i3, i4, i5.
Qed.

(** Extraction returns well-formed assumptions, and a call of the builder
    leaves them well-formed. *)
Lemma initial_values_keys (sections : list (string * ndarray num)) initial :
  mapM (λ kv, v ← from_option IndexError (elems kv.2 !! 0%nat);
              mret (kv.1, v)) sections = Ok initial →
  initial.*1 = sections.*1.
Proof.
  intros Hinit%mapM_Ok.
  induction Hinit as [|[k v] [k' iv] sections initial Hv _ IH]; [done|].
  apply bind_Ok in Hv as (v' & _ & [= <- <-]).
  rewrite !fmap_cons. cbn [fst]. by f_equal.
Qed.

Lemma main_flow_well_formed (df : DataFrame num) a :
  main_flow df = Ok a → well_formed a.
Proof.
  intros (sections & initial & Hid & _ & _ & Hinit & ->)%main_flow_inv.
  pose proof (identify_key_sections_keys df sections Hid) as Hkeys.
  split; cbn [initial_values static_keys avg_growth_rates].
  - rewrite <- Hkeys. by apply initial_values_keys.
  - intros key Hkey Hns.
    assert (key ∈ (growth_of sections).*1) as Hin.
    { rewrite growth_of_keys, Hkeys. rewrite !elem_of_cons in Hkey.
      destruct Hkey as [->|[->|[->|Hnil]]];
        [compute_done|compute_done|compute_done|].
      by apply elem_of_nil in Hnil. }
    apply list_elem_of_fmap in Hin as ([k values] & -> & Hin).
    exists (average values). apply lookup_averages; [|done|done].
    rewrite growth_of_keys, Hkeys. apply NoDup_category_names.
Qed.

Lemma build_new_df_well_formed (a : Assumptions num) periods x y :
  well_formed a → well_formed (build_new_df a periods x y).1.
Proof.
  intros [Hkeys Hrates]. split; [done|].
  cbn [build_new_df fst static_keys avg_growth_rates]. intros key Hkey Hns.
  destruct (override_rates_lookup (avg_growth_rates a) x y) as (_ & _ & ->).
  - by apply Hrates.
  - intros ->. revert Hkey. compute_done.
  - intros ->. revert Hkey. compute_done.
Qed.

Lemma build_new_df_inv (a : Assumptions num) periods x y t :
  (build_new_df a periods x y).2 = Ok t →
  ∃ ps ss cogs mk st, t = table_of periods ps ss cogs mk st.
Proof.
  unfold build_new_df. cbn [snd]. intros Ht.
  destruct (mapM (λ kv, r ← project_row (static_keys a)
                      (override_rates (avg_growth_rates a) x y) periods kv.1 kv.2;
                    mret (kv.1, r)) (initial_values a)) as [data|e] eqn:Hdata.
  - rewrite (build_table_spec _ _ _ _ data Hdata) in Ht.
    destruct ((periods <? 0) || is_nil data); [discriminate|].
    apply bind_Ok in Ht as (ps & _ & Ht). apply bind_Ok in Ht as (ss & _ & Ht).
    apply bind_Ok in Ht as (cogs & _ & Ht). apply bind_Ok in Ht as (mk & _ & Ht).
    apply bind_Ok in Ht as (st & _ & [= <-]). by exists ps, ss, cogs, mk, st.
  - unfold build_table in Ht. rewrite Hdata in Ht. discriminate.
Qed.

(** C3.  In every table the builder returns, the row [Total Sales] is the
    column-wise sum of [Product Sales] and [Service Sales], the row
    [Total Operating Expenses] the column-wise sum of [Cost of Goods Sold],
    [Marketing] and [Staff Salaries] (added in that order), and the row
    [Net Income] the column-wise difference of the two totals; the derived
    cells are these sums and differences themselves, no [round] is applied
    to them. *)
Theorem build_new_df_derived_rows (a : Assumptions num) (periods x y : Z) t :
  (build_new_df a periods x y).2 = Ok t →
  ∃ ps ss ts cogs mk st toe ni,
    assoc "Product Sales" (rows t) = Some ps ∧
    assoc "Service Sales" (rows t) = Some ss ∧
    assoc "Total Sales" (rows t) = Some ts ∧
    assoc "Cost of Goods Sold" (rows t) = Some cogs ∧
    assoc "Marketing" (rows t) = Some mk ∧
    assoc "Staff Salaries" (rows t) = Some st ∧
    assoc "Total Operating Expenses" (rows t) = Some toe ∧
    assoc "Net Income" (rows t) = Some ni ∧
    ts = zip_with add ps ss ∧
    toe = zip_with add (zip_with add cogs mk) st ∧
    ni = zip_with sub ts toe ∧
    ∀ j p s c m w,
      ps !! j = Some p → ss !! j = Some s → cogs !! j = Some c →
      mk !! j = Some m → st !! j = Some w →
      ts !! j = Some (add p s) ∧
      toe !! j = Some (add (add c m) w) ∧
      ni !! j = Some (sub (add p s) (add (add c m) w)).
Proof.
  intros (ps & ss & cogs & mk & st & ->)%build_new_df_inv.
  exists ps, ss, (zip_with add ps ss), cogs, mk, st,
    (zip_with add (zip_with add cogs mk) st),
    (zip_with sub (zip_with add ps ss) (zip_with add (zip_with add cogs mk) st)).
  repeat (split; [reflexivity|]).
  intros j p s c m w Hp Hs Hc Hm Hw.
  rewrite !lookup_zip_with, Hp, Hs, Hc, Hm, Hw. done.
Qed.

(** C9.  A call of the builder leaves the assumptions in a state from
    which the same call returns the same result and leaves the same state:
    two calls in succession with the same arguments give identical tables,
    although each assigns the two sales rates in the shared mapping. *)
Theorem build_new_df_twice (a : Assumptions num) (periods x y : Z) :
  let first := build_new_df a periods x y in
  let second := build_new_df first.1 periods x y in
  second.2 = first.2 ∧ second.1 = first.1.
Proof.
  cbv zeta. unfold build_new_df. cbn [fst snd static_keys avg_growth_rates initial_values].
  by rewrite override_rates_idemp.
Qed.

(** The state of the assumptions after a sequence of calls of the
    builder, each given as [(periods, product rate, service rate)]. *)
Lemma static_keys_after_calls (a : Assumptions num) (calls : list (Z * Z * Z)) :
  static_keys (foldl (λ s c, (build_new_df s c.1.1 c.1.2 c.2).1) a calls) =
  static_keys a.
Proof.
  revert a. induction calls as [|c calls IH]; intros a; simpl; [done|].
  by rewrite IH.
Qed.

Lemma dom_rates_after_calls (a : Assumptions num) (calls : list (Z * Z * Z)) :
  dom (avg_growth_rates
         (foldl (λ s c, (build_new_df s c.1.1 c.1.2 c.2).1) a calls)) =
  (if is_nil calls then ∅ else {["Product Sales"; "Service Sales"]})
    ∪ dom (avg_growth_rates a).
Proof.
  revert a. induction calls as [|c calls IH]; intros a; simpl.
  - by rewrite (left_id_L ∅ (∪)).
  - rewrite IH. cbn [build_new_df fst avg_growth_rates].
    rewrite dom_override_rates. destruct (is_nil calls).
    + by rewrite (left_id_L ∅ (∪)).
    + by rewrite (assoc_L (∪)), (idemp_L (∪)).
Qed.

(** C4, as the program has it.  The mapping extraction returns holds no
    static category.  A call of the builder keeps [static_keys], assigns
    the entries of [Product Sales] and [Service Sales] whether or not they
    are static, and adds no other key: after any sequence of calls the
    keys of the mapping are those extraction gave plus, once a call has
    been made, the two sales categories, so a static category is in the
    mapping exactly when a call has been made and it is one of the two
    sales categories. *)
Theorem static_categories_and_rates (df : DataFrame num) a
    (calls : list (Z * Z * Z)) :
  main_flow df = Ok a →
  let a' := foldl (λ s c, (build_new_df s c.1.1 c.1.2 c.2).1) a calls in
  (∀ key, key ∈ static_keys a → avg_growth_rates a !! key = None) ∧
  static_keys a' = static_keys a ∧
  dom (avg_growth_rates a') =
    (if is_nil calls then ∅ else {["Product Sales"; "Service Sales"]})
      ∪ dom (avg_growth_rates a) ∧
  ∀ key, key ∈ static_keys a' →
    (is_Some (avg_growth_rates a' !! key) ↔
     is_nil calls = false ∧ (key = "Product Sales" ∨ key = "Service Sales")).
Proof.
  intros Hmain. cbv zeta.
  pose proof (main_flow_static_averages_dom df a Hmain) as Hdom.
  assert (∀ key, key ∈ static_keys a → avg_growth_rates a !! key = None) as Hnone.
  { intros key Hkey. apply not_elem_of_dom. rewrite Hdom.
    rewrite elem_of_difference, !elem_of_list_to_set. tauto. }
  split; [done|]. split; [apply static_keys_after_calls|].
  split; [apply dom_rates_after_calls|].
  intros key. rewrite static_keys_after_calls. intros Hkey.
  rewrite <- elem_of_dom, dom_rates_after_calls, elem_of_union.
  specialize (Hnone key Hkey). apply not_elem_of_dom in Hnone.
  destruct (is_nil calls).
  - rewrite elem_of_empty. split; [tauto|]. by intros [? _].
  - rewrite elem_of_union, !elem_of_singleton. split; [tauto|]. intros [_ ?]. tauto.
Qed.

(** * Further properties of the extraction *)

Lemma identify_key_sections_unfold (df : DataFrame num) :
  identify_key_sections df =
    mapM (λ kr : string * nat,
            v ← from_option IndexError (slice_of df <$> df_rows df !! kr.2);
            mret (kr.1, v))
         [("Product Sales", 2%nat); ("Service Sales", 3%nat);
          ("Cost of Goods Sold", 6%nat); ("Marketing", 7%nat);
          ("Staff Salaries", 8%nat)].
Proof.
  unfold identify_key_sections, iloc_row_slice. cbn [mapM snd fst].
  destruct (df_rows df !! 2%nat); [|done].
  destruct (df_rows df !! 3%nat); [|done].
  destruct (df_rows df !! 6%nat); [|done].
  destruct (df_rows df !! 7%nat); [|done].
  destruct (df_rows df !! 8%nat); done.
Qed.

(** X1.  Extraction looks at nothing but the slices [1:14] of the five
    category rows: two frames of the same kind that agree there give the
    same result, whatever their other rows and columns hold. *)
Theorem main_flow_reads_only_sections (df df' : DataFrame num) :
  df_kind df = df_kind df' →
  (∀ r, r ∈ category_rows →
        take 13 ∘ drop 1 <$> df_rows df !! r =
        take 13 ∘ drop 1 <$> df_rows df' !! r) →
  identify_key_sections df = identify_key_sections df' ∧
  main_flow df = main_flow df'.
Proof.
  intros Hkind Hrows.
  assert (identify_key_sections df = identify_key_sections df') as Hid.
  { rewrite !identify_key_sections_unfold.
    assert (∀ r, r ∈ category_rows →
      slice_of df <$> df_rows df !! r = slice_of df' <$> df_rows df' !! r) as Hs.
    { intros r Hr. specialize (Hrows r Hr). unfold slice_of. rewrite Hkind.
      destruct (df_rows df !! r), (df_rows df' !! r); simpl in *;
        try discriminate; [|done].
      injection Hrows as ->. done. }
    cbn [mapM snd fst].
    by rewrite !Hs by compute_done. }
  split; [done|]. unfold main_flow. by rewrite Hid.
Qed.

(** X2.  The initial value of every category, static or not, is the cell of
    its row in column 1 of the frame. *)
Theorem main_flow_initial_values (df : DataFrame num) a :
  main_flow df = Ok a →
  (initial_values a).*1 = category_names ∧
  Forall2 (λ r (kv : string * num),
             ∃ row, df_rows df !! r = Some row ∧ row !! 1%nat = Some kv.2)
          category_rows (initial_values a).
Proof.
  intros (sections & initial & Hid & _ & _ & Hinit & ->)%main_flow_inv.
  cbn [initial_values].
  split.
  { rewrite <- (identify_key_sections_keys df sections Hid).
    by apply initial_values_keys. }
  apply identify_key_sections_inv in Hid
    as (_ & r2 & r3 & r6 & r7 & r8 & H2 & H3 & H6 & H7 & H8 & ->).
  assert (∀ row : list num,
    elems (slice_of df row) !! 0%nat = row !! 1%nat) as Hcell.
  { intros row. simpl. rewrite lookup_take_lt by lia. by rewrite lookup_drop. }
  cbn [mapM fst snd] in Hinit. rewrite !Hcell in Hinit.
  destruct (r2 !! 1%nat) as [v2|] eqn:E2; [|discriminate].
  destruct (r3 !! 1%nat) as [v3|] eqn:E3; [|discriminate].
  destruct (r6 !! 1%nat) as [v6|] eqn:E6; [|discriminate].
  destruct (r7 !! 1%nat) as [v7|] eqn:E7; [|discriminate].
  destruct (r8 !! 1%nat) as [v8|] eqn:E8; [|discriminate].
  injection Hinit as <-. unfold category_rows.
  repeat (apply Forall2_cons; split; [eexists; by split|]).
  apply Forall2_nil_2.
Qed.

Lemma rates_of_short (l : list num) :
  (length l ≤ 1)%nat → rates_of l = [] ∧ divisors l = [].
Proof.
  destruct l as [|x [|y l]]; simpl; [done|done|lia].
Qed.

(** X3.  The growth rates keep the keys of the sections, in order, and each
    series is one entry shorter than its row.  A row of one value or none
    gives an empty series: nothing is divided, so nothing is raised. *)
Theorem calculate_growth_rates_shape (sections : list (string * ndarray num)) :
  (∀ growth, calculate_growth_rates sections = Ok growth →
     growth.*1 = sections.*1 ∧
     Forall2 (λ (s : string * ndarray num) (g : string * list num),
                g.1 = s.1 ∧ length g.2 = (length (elems s.2) - 1)%nat)
             sections growth) ∧
  (Forall (λ s : string * ndarray num, (length (elems s.2) ≤ 1)%nat) sections →
     calculate_growth_rates sections = Ok ((λ s, (s.1, [])) <$> sections)).
Proof.
  split.
  - intros growth. rewrite calculate_growth_rates_spec.
    destruct (existsb _ _); [discriminate|]. intros [= <-].
    split; [apply growth_of_keys|]. unfold growth_of.
    apply Forall2_fmap_r, Forall_Forall2_diag, Forall_forall.
    intros [k v] _. simpl. split; [done|]. apply length_rates_of.
  - intros Hshort. rewrite calculate_growth_rates_spec.
    assert (existsb (λ kv : string * ndarray num, division_raises kv.2) sections
              = false ∧
            growth_of sections = (λ s, (s.1, [])) <$> sections) as [-> ->]; [|done].
    induction Hshort as [|[k v] sections Hv _ [IHe IHg]]; [done|].
    destruct (rates_of_short (elems v) Hv) as [Hr Hd]. simpl in Hr, Hd.
    split.
    + cbn [existsb snd]. rewrite IHe. unfold division_raises. rewrite Hd.
      by destruct (dtype v).
    + unfold growth_of in *. cbn [map fst snd]. rewrite Hr.
      rewrite fmap_cons. cbn [fst]. f_equal. exact IHg.
Qed.

(** X4.  The static keys come in the order of the categories, none twice. *)
Theorem main_flow_static_keys_ordered (df : DataFrame num) a :
  main_flow df = Ok a →
  static_keys a `sublist_of` category_names ∧ NoDup (static_keys a).
Proof.
  intros (sections & initial & Hid & _ & _ & _ & ->)%main_flow_inv.
  cbn [static_keys].
  assert (static_of (growth_of sections) `sublist_of` category_names) as Hsub.
  { rewrite <- (identify_key_sections_keys df sections Hid), <- growth_of_keys.
    unfold static_of. generalize (growth_of sections). intros l.
    induction l as [|[k v] l IH]; [done|].
    rewrite filter_cons. destruct (decide _); rewrite !fmap_cons.
    - by apply sublist_skip.
    - by apply sublist_cons. }
  split; [done|]. eapply sublist_NoDup; [apply NoDup_category_names|done].
Qed.

Lemma main_flow_Ok_intro (df : DataFrame num) sections :
  identify_key_sections df = Ok sections →
  existsb (λ kv, division_raises kv.2) sections = false →
  Forall (λ kv : string * ndarray num, (2 ≤ length (elems kv.2))%nat) sections →
  ∃ a, main_flow df = Ok a.
Proof.
  intros Hid Hraise Hlen. rewrite (main_flow_spec df _ Hid), Hraise.
  rewrite Forall_forall in Hlen.
  replace (existsb _ (growing_of (growth_of sections))) with false; cycle 1.
  { symmetry. apply not_true_is_false. intros ([k g] & Hin & Hnil)%existsb_exists.
    apply list_elem_of_In, elem_of_growing in Hin as [Hin _].
    apply list_elem_of_fmap in Hin as ([k' v] & [= -> ->] & Hin).
    specialize (Hlen _ Hin). simpl in *.
    pose proof (length_rates_of (elems v)) as Hl.
    destruct (rates_of (elems v)); [simpl in Hl; lia|done]. }
  edestruct initial_values_Ok as [initial ->]; [|by eexists].
  intros kv Hin Hnil. specialize (Hlen _ Hin). rewrite Hnil in Hlen.
  simpl in Hlen. lia.
Qed.

(** X5.  With nine rows but only one or two columns there is nothing to
    compare: every series is empty, no category is static, and the
    average of the first one raises [ZeroDivisionError], numeric frame or
    not. *)
Theorem main_flow_too_narrow (ncols : nat) (df : DataFrame num) :
  rectangular ncols df → (9 ≤ length (df_rows df))%nat → (ncols ≤ 2)%nat →
  main_flow df = Err ZeroDivisionError.
Proof.
  intros Hrect Hrows Hcols.
  destruct (identify_key_sections_Ok df Hrows)
    as (r2 & r3 & r6 & r7 & r8 & H2 & H3 & H6 & H7 & H8 & Hid).
  unfold rectangular in Hrect. rewrite Forall_lookup in Hrect.
  assert (∀ r row, df_rows df !! r = Some row →
    rates_of (elems (slice_of df row)) = [] ∧
    division_raises (slice_of df row) = false) as Hshort.
  { intros r row Hrow.
    destruct (rates_of_short (elems (slice_of df row))) as [Hr Hd].
    { rewrite length_slice_of, (Hrect _ _ Hrow). lia. }
    split; [done|]. unfold division_raises. rewrite Hd.
    by destruct (dtype _). }
  destruct (Hshort _ _ H2) as [G2 D2]. destruct (Hshort _ _ H3) as [G3 D3].
  destruct (Hshort _ _ H6) as [G6 D6]. destruct (Hshort _ _ H7) as [G7 D7].
  destruct (Hshort _ _ H8) as [G8 D8].
  rewrite (main_flow_spec df _ Hid). cbn [existsb snd].
  rewrite D2, D3, D6, D7, D8. cbn [orb].
  unfold growth_of. cbn [map fst snd]. rewrite G2, G3, G6, G7, G8.
  reflexivity.
Qed.

(** X6.  A numeric frame with at least nine rows and three columns is always
    extracted: no division raises, and every series has an entry. *)
Theorem main_flow_numeric_frame (ncols : nat) (df : DataFrame num) :
  df_kind df = NumPyScalar →
  rectangular ncols df → (9 ≤ length (df_rows df))%nat → (3 ≤ ncols)%nat →
  ∃ a, main_flow df = Ok a.
Proof.
  intros Hkind Hrect Hrows Hcols.
  destruct (identify_key_sections_Ok df Hrows)
    as (r2 & r3 & r6 & r7 & r8 & H2 & H3 & H6 & H7 & H8 & Hid).
  unfold rectangular in Hrect. rewrite Forall_lookup in Hrect.
  apply (main_flow_Ok_intro df _ Hid).
  - cbn [existsb snd]. unfold division_raises, slice_of. cbn [dtype].
    by rewrite Hkind.
  - repeat (apply Forall_cons; split;
      [cbn [snd]; rewrite length_slice_of; erewrite Hrect by done; lia|]).
    apply Forall_nil_2.
Qed.

(** * Further properties of the projection *)

Lemma assoc_Some_elem_of {V} (d : list (string * V)) k v :
  assoc k d = Some v → (k, v) ∈ d.
Proof.
  induction d as [|[k' v'] d IH]; simpl; [done|].
  destruct (decide (k = k')) as [->|Hne].
  - intros [= ->]. by left.
  - intros Hd. right. by apply IH.
Qed.

Lemma assoc_is_Some {V} (d : list (string * V)) k :
  is_Some (assoc k d) ↔ k ∈ d.*1.
Proof.
  induction d as [|[k' v'] d IH].
  - simpl. rewrite elem_of_nil. split; [by intros [? ?]|done].
  - rewrite fmap_cons, elem_of_cons. cbn [fst assoc].
    destruct (decide (k = k')) as [->|Hne].
    + split; [by left|by eexists].
    + rewrite IH. split; [by right|]. by intros [?|?].
Qed.

Lemma is_static_true_iff (static : list string) key :
  is_static static key = true ↔ key ∈ static.
Proof. unfold is_static. by rewrite bool_decide_eq_true. Qed.

Lemma bind_Err_inv {A B} (m : result A) (g : A → B) e :
  (r ← m; mret (g r)) = Err e → m = Err e.
Proof. destruct m as [r|e']; simpl; [discriminate|]. by intros [= ->]. Qed.

Lemma project_row_Err static rates periods key (iv : num) e :
  project_row static rates periods key iv = Err e →
  (key ∉ static) ∧
  ((e = KeyError ∧ rates !! key = None) ∨
   (e = OverflowError ∧
    ∃ rate p, rates !! key = Some rate ∧ 0 ≤ p ≤ periods ∧
              pow (add (of_Z 1) rate) p = None)).
Proof.
  unfold project_row. destruct (is_static static key) eqn:Hs; [discriminate|].
  apply is_static_false in Hs. intros (p & [Hlo Hhi]%elem_of_seqZ & Hp)%mapM_Err.
  split; [done|]. destruct (rates !! key) as [rate|]; simpl in Hp.
  - destruct (pow (add (of_Z 1) rate) p) eqn:Hpow; [discriminate|].
    injection Hp as <-. right. split; [done|]. exists rate, p.
    split; [done|]. split; [lia|done].
  - injection Hp as <-. by left.
Qed.

Lemma project_row_Ok_iff static rates periods key (iv : num) :
  0 ≤ periods →
  is_ok (project_row static rates periods key iv) = true ↔
  (key ∉ static →
   ∃ rate, rates !! key = Some rate ∧
           ∀ p, 0 ≤ p ≤ periods → is_Some (pow (add (of_Z 1) rate) p)).
Proof.
  intros Hper. destruct (is_static static key) eqn:Hs.
  - rewrite project_row_static by done. apply is_static_true_iff in Hs.
    split; [done|done].
  - pose proof Hs as Hns%is_static_false.
    destruct (rates !! key) as [rate|] eqn:Hrate.
    + rewrite (project_row_growing _ _ _ _ _ rate) by done. split.
      * destruct (compound iv rate periods) as [series|] eqn:Hc; [|discriminate].
        intros _ _. exists rate. split; [done|]. intros p Hp.
        destruct (lookup_compound _ _ _ _ p Hc Hp) as (power & -> & _). by eexists.
      * intros Hall. destruct (Hall Hns) as (rate' & [= <-] & Hpow).
        by destruct (compound_returns iv rate periods Hpow) as [series ->].
    + split.
      * unfold project_row. rewrite Hs, Hrate, seqZ_cons by lia. discriminate.
      * intros Hall. by destruct (Hall Hns) as (rate & ? & _).
Qed.

Lemma project_row_ext static rates rates' periods key (iv : num) :
  (is_static static key = false → rates !! key = rates' !! key) →
  project_row static rates periods key iv =
  project_row static rates' periods key iv.
Proof.
  intros Hext. unfold project_row.
  destruct (is_static static key); [done|]. by rewrite Hext.
Qed.

Lemma build_table_ext static rates rates' (initial : list (string * num)) periods :
  (∀ key, key ∉ static → rates !! key = rates' !! key) →
  build_table static rates initial periods =
  build_table static rates' initial periods.
Proof.
  intros Hext. unfold build_table.
  replace (mapM (λ kv : string * num,
             r ← project_row static rates periods kv.1 kv.2; mret (kv.1, r)) initial)
    with (mapM (λ kv : string * num,
             r ← project_row static rates' periods kv.1 kv.2; mret (kv.1, r)) initial);
    [done|].
  induction initial as [|[k iv] initial IH]; [done|]. cbn [mapM fst snd].
  rewrite IH. rewrite (project_row_ext static rates rates'); [done|].
  intros Hs%is_static_false. by apply Hext.
Qed.

(** What the projected data looks like when the table is returned. *)
Lemma build_new_df_Ok_inv (a : Assumptions num) periods x y t :
  (build_new_df a periods x y).2 = Ok t →
  0 ≤ periods ∧
  ∃ data ps ss cogs mk st,
    mapM (λ kv, r ← project_row (static_keys a)
                      (override_rates (avg_growth_rates a) x y) periods kv.1 kv.2;
                mret (kv.1, r)) (initial_values a) = Ok data ∧
    assoc "Product Sales" data = Some ps ∧ assoc "Service Sales" data = Some ss ∧
    assoc "Cost of Goods Sold" data = Some cogs ∧ assoc "Marketing" data = Some mk ∧
    assoc "Staff Salaries" data = Some st ∧
    t = table_of periods ps ss cogs mk st.
Proof.
  unfold build_new_df. cbn [snd]. intros Ht.
  destruct (mapM (λ kv, r ← project_row (static_keys a)
                      (override_rates (avg_growth_rates a) x y) periods kv.1 kv.2;
                    mret (kv.1, r)) (initial_values a)) as [data|e] eqn:Hdata;
    [|unfold build_table in Ht; rewrite Hdata in Ht; discriminate].
  rewrite (build_table_spec _ _ _ _ data Hdata) in Ht.
  destruct (Z.ltb_spec periods 0); [discriminate|].
  destruct (is_nil data); [discriminate|]. cbn [orb] in Ht. split; [done|].
  destruct (assoc "Product Sales" data) as [ps|] eqn:Hps; [|discriminate].
  destruct (assoc "Service Sales" data) as [ss|] eqn:Hss; [|discriminate].
  destruct (assoc "Cost of Goods Sold" data) as [cogs|] eqn:Hcogs; [|discriminate].
  destruct (assoc "Marketing" data) as [mk|] eqn:Hmk; [|discriminate].
  destruct (assoc "Staff Salaries" data) as [st|] eqn:Hst; [|discriminate].
  injection Ht as <-. by exists data, ps, ss, cogs, mk, st.
Qed.

Lemma NoDup_month_labels periods : NoDup ("Category" :: month_labels periods).
Proof.
  unfold month_labels.
  assert (∀ s : string, s ∈ (λ i, "Month " +:+ pretty i) <$> seqZ 1 periods →
            ∃ s', s = "Month " +:+ s') as Hmonth.
  { intros s (i & -> & _)%list_elem_of_fmap. by eexists. }
  apply NoDup_cons. split.
  { rewrite elem_of_cons. intros [?|[s' ?]%Hmonth]; discriminate. }
  apply NoDup_cons. split.
  { intros [s' ?]%Hmonth. discriminate. }
  apply NoDup_fmap_2; [|apply NoDup_seqZ].
  intros i j Heq. apply (inj (String.append "Month ")) in Heq.
  by apply (inj pretty) in Heq.
Qed.

(** X7.  Every table returned has the eight rows in the fixed order, the
    columns [Category], [Initial], [Month 1] up to [Month periods] with no
    label twice, and [periods + 1] cells in each row; a table is only
    returned for [periods >= 0]. *)
Theorem build_new_df_shape (a : Assumptions num) (periods x y : Z) t :
  (build_new_df a periods x y).2 = Ok t →
  0 ≤ periods ∧
  (rows t).*1 = row_order ∧
  columns t =
    "Category" :: "Initial" :: ((λ i, "Month " +:+ pretty i) <$> seqZ 1 periods) ∧
  length (columns t) = (Z.to_nat periods + 2)%nat ∧
  NoDup (columns t) ∧
  Forall (λ r : string * list num, length r.2 = Z.to_nat (periods + 1)) (rows t).
Proof.
  intros (Hper & data & ps & ss & cogs & mk & st & Hdata & Hps & Hss & Hcogs
          & Hmk & Hst & ->)%build_new_df_Ok_inv.
  split; [done|]. split; [done|]. split; [done|].
  split; [cbn [columns table_of length]; rewrite length_month_labels; lia|].
  split; [apply NoDup_month_labels|].
  destruct (projected_lengths _ _ _ _ _ Hdata) as [_ Hlen].
  rewrite Forall_forall in Hlen.
  assert (∀ k v, assoc k data = Some v → length v = Z.to_nat (periods + 1)) as Hl.
  { intros k v Hv%assoc_Some_elem_of. by apply (Hlen (k, v)). }
  pose proof (Hl _ _ Hps). pose proof (Hl _ _ Hss). pose proof (Hl _ _ Hcogs).
  pose proof (Hl _ _ Hmk). pose proof (Hl _ _ Hst).
  cbn [rows table_of].
  repeat (apply Forall_cons; split;
    [cbn [snd]; rewrite ?length_zip_with; lia|]).
  apply Forall_nil_2.
Qed.

Lemma projected_Ok_iff static rates (initial : list (string * num)) periods :
  0 ≤ periods →
  is_ok (mapM (λ kv, r ← project_row static rates periods kv.1 kv.2;
                     mret (kv.1, r)) initial) = true ↔
  ∀ k iv, (k, iv) ∈ initial → k ∉ static →
    ∃ rate, rates !! k = Some rate ∧
            ∀ p, 0 ≤ p ≤ periods → is_Some (pow (add (of_Z 1) rate) p).
Proof.
  intros Hper. induction initial as [|[k iv] initial IH].
  { split; [|done]. by intros _ k iv ?%elem_of_nil. }
  cbn [mapM fst snd].
  pose proof (project_row_Ok_iff static rates periods k iv Hper) as Hrow.
  destruct (project_row static rates periods k iv) as [r|e] eqn:Hr; simpl in *.
  - destruct (mapM _ initial) as [data|e]; simpl in *.
    + split; [|done]. intros _ k' iv' [[= -> ->]|Hin]%elem_of_cons.
      * by apply Hrow.
      * by apply (proj1 IH eq_refl k' iv').
    + split; [done|]. intros Hall. apply IH. intros k' iv' Hin.
      apply (Hall k' iv'). by right.
  - split; [done|]. intros Hall. apply Hrow. apply (Hall k iv). by left.
Qed.

Lemma projected_Err static rates (initial : list (string * num)) periods e :
  mapM (λ kv, r ← project_row static rates periods kv.1 kv.2;
              mret (kv.1, r)) initial = Err e →
  ∃ k iv, (k, iv) ∈ initial ∧ project_row static rates periods k iv = Err e.
Proof.
  intros ([k iv] & Hin & Hrow)%mapM_Err. apply bind_Err_inv in Hrow.
  by exists k, iv.
Qed.

(** The builder returns a table when [periods >= 0], the five categories
    have an initial value, and every row can be projected. *)
Lemma build_new_df_Ok_intro (a : Assumptions num) periods x y :
  0 ≤ periods →
  (∀ k, k ∈ category_names → k ∈ (initial_values a).*1) →
  (∀ k iv, (k, iv) ∈ initial_values a → k ∉ static_keys a →
     ∃ rate, override_rates (avg_growth_rates a) x y !! k = Some rate ∧
             ∀ p, 0 ≤ p ≤ periods → is_Some (pow (add (of_Z 1) rate) p)) →
  ∃ t, (build_new_df a periods x y).2 = Ok t.
Proof.
  intros Hper Hcat Hrates.
  apply (projected_Ok_iff _ _ _ periods Hper) in Hrates.
  unfold build_new_df. cbn [snd].
  destruct (mapM _ (initial_values a)) as [data|e] eqn:Hdata; [|discriminate].
  rewrite (build_table_spec _ _ _ _ data Hdata).
  destruct (projected_lengths _ _ _ _ _ Hdata) as [Hkeys _].
  assert (∀ k, k ∈ category_names → is_Some (assoc k data)) as Hsome.
  { intros k Hk. apply assoc_is_Some. rewrite Hkeys. by apply Hcat. }
  destruct (Hsome "Product Sales") as [ps Hps]; [compute_done|].
  destruct (Hsome "Service Sales") as [ss Hss]; [compute_done|].
  destruct (Hsome "Cost of Goods Sold") as [cogs Hcogs]; [compute_done|].
  destruct (Hsome "Marketing") as [mk Hmk]; [compute_done|].
  destruct (Hsome "Staff Salaries") as [st Hst]; [compute_done|].
  rewrite Hps, Hss, Hcogs, Hmk, Hst.
  destruct (Z.ltb_spec periods 0); [lia|].
  destruct data; [discriminate|]. by eexists.
Qed.

Lemma build_new_df_Ok_powers (a : Assumptions num) periods x y t :
  (build_new_df a periods x y).2 = Ok t →
  0 ≤ periods ∧
  (∀ k, k ∈ category_names → k ∈ (initial_values a).*1) ∧
  (∀ k iv, (k, iv) ∈ initial_values a → k ∉ static_keys a →
     ∃ rate, override_rates (avg_growth_rates a) x y !! k = Some rate ∧
             ∀ p, 0 ≤ p ≤ periods → is_Some (pow (add (of_Z 1) rate) p)).
Proof.
  intros (Hper & data & ps & ss & cogs & mk & st & Hdata & Hps & Hss & Hcogs
          & Hmk & Hst & _)%build_new_df_Ok_inv.
  split; [done|].
  destruct (projected_lengths _ _ _ _ _ Hdata) as [Hkeys _].
  split.
  - intros k Hk. rewrite <- Hkeys. apply assoc_is_Some.
    unfold category_names in Hk. rewrite !elem_of_cons in Hk.
    destruct Hk as [->|[->|[->|[->|[->|Hnil]]]]]; [by eexists..|].
    by apply elem_of_nil in Hnil.
  - apply projected_Ok_iff with (periods := periods); [done|].
    by rewrite Hdata.
Qed.

(** X8.  The builder returns a table exactly when [periods >= 0], the
    initial values cover the five categories, every category with an
    initial value that is not static has a rate once the sales rates are
    assigned, and each of its powers [(1 + rate) ** p], for [p] from [0] to
    [periods], has a value. *)
Theorem build_new_df_succeeds_iff (a : Assumptions num) (periods x y : Z) :
  is_ok (build_new_df a periods x y).2 = true ↔
  0 ≤ periods ∧
  (∀ k, k ∈ category_names → k ∈ (initial_values a).*1) ∧
  (∀ k iv, (k, iv) ∈ initial_values a → k ∉ static_keys a →
     ∃ rate, override_rates (avg_growth_rates a) x y !! k = Some rate ∧
             ∀ p, 0 ≤ p ≤ periods → is_Some (pow (add (of_Z 1) rate) p)).
Proof.
  split.
  - destruct ((build_new_df a periods x y).2) as [t|e] eqn:Ht; [|discriminate].
    intros _. by apply (build_new_df_Ok_powers a periods x y t).
  - intros (Hper & Hcat & Hrates).
    by destruct (build_new_df_Ok_intro a periods x y Hper Hcat Hrates) as [t ->].
Qed.

(** The exceptions of the builder and what causes each. *)
Lemma build_new_df_Err_cases (a : Assumptions num) periods x y e :
  (build_new_df a periods x y).2 = Err e →
  (e = ValueError ∧ (periods < 0 ∨ initial_values a = [])) ∨
  (e = KeyError ∧ 0 ≤ periods ∧ initial_values a ≠ [] ∧
   ((∃ k iv, ((k, iv) ∈ initial_values a) ∧ (k ∉ static_keys a) ∧
             override_rates (avg_growth_rates a) x y !! k = None) ∨
    (∃ k, k ∈ category_names ∧ k ∉ (initial_values a).*1))) ∨
  (e = OverflowError ∧ 0 ≤ periods ∧ initial_values a ≠ [] ∧
   power_overflows (static_keys a) (override_rates (avg_growth_rates a) x y)
                   (initial_values a) periods).
Proof.
  unfold build_new_df. cbn [snd].
  destruct (mapM (λ kv, r ← project_row (static_keys a)
                      (override_rates (avg_growth_rates a) x y) periods kv.1 kv.2;
                    mret (kv.1, r)) (initial_values a)) as [data|e'] eqn:Hdata.
  - rewrite (build_table_spec _ _ _ _ data Hdata).
    assert (is_nil data = true ↔ initial_values a = []) as Hnil.
    { apply mapM_length in Hdata.
      destruct data, (initial_values a); simpl in *; split; (done || lia). }
    destruct (projected_lengths _ _ _ _ _ Hdata) as [Hkeys _].
    destruct (Z.ltb_spec periods 0) as [Hneg|Hpos]; cbn [orb].
    { intros [= <-]. left. split; [done|by left]. }
    destruct (is_nil data).
    { intros [= <-]. left. split; [done|]. right. by apply Hnil. }
    assert (initial_values a ≠ []) as Hne.
    { intros Hn. apply Hnil in Hn. discriminate. }
    assert (∀ k, k ∈ category_names → assoc k data = None →
      (∃ k, k ∈ category_names ∧ k ∉ (initial_values a).*1)) as Hmiss.
    { intros k Hk Hnone. exists k. split; [done|]. rewrite <- Hkeys.
      intros [v Hv]%assoc_is_Some. congruence. }
    destruct (assoc "Product Sales" data) eqn:Hps; simpl;
      [|intros [= <-]; right; left; repeat (split; [done|]); right;
        by apply (Hmiss "Product Sales"); [compute_done|]].
    destruct (assoc "Service Sales" data) eqn:Hss; simpl;
      [|intros [= <-]; right; left; repeat (split; [done|]); right;
        by apply (Hmiss "Service Sales"); [compute_done|]].
    destruct (assoc "Cost of Goods Sold" data) eqn:Hcogs; simpl;
      [|intros [= <-]; right; left; repeat (split; [done|]); right;
        by apply (Hmiss "Cost of Goods Sold"); [compute_done|]].
    destruct (assoc "Marketing" data) eqn:Hmk; simpl;
      [|intros [= <-]; right; left; repeat (split; [done|]); right;
        by apply (Hmiss "Marketing"); [compute_done|]].
    destruct (assoc "Staff Salaries" data) eqn:Hst; simpl;
      [|intros [= <-]; right; left; repeat (split; [done|]); right;
        by apply (Hmiss "Staff Salaries"); [compute_done|]].
    discriminate.
  - unfold build_table. rewrite Hdata. simpl. intros [= <-].
    destruct (projected_Err _ _ _ _ _ Hdata) as (k & iv & Hin & Hrow).
    assert (0 ≤ periods) as Hper.
    { destruct (decide (0 ≤ periods)) as [|Hneg]; [done|].
      rewrite project_row_negative in Hrow by lia. discriminate. }
    assert (initial_values a ≠ []) as Hne.
    { intros Hn. rewrite Hn in Hin. by apply elem_of_nil in Hin. }
    apply project_row_Err in Hrow as [Hns [[-> Hnone]|[-> (rate & p & Hrate & Hp & Hpow)]]].
    + right. left. repeat (split; [done|]). left. by exists k, iv.
    + right. right. repeat (split; [done|]). by exists k, iv, rate, p.
Qed.

(** X9.  The builder raises nothing but [ValueError], [KeyError] and
    [OverflowError]; it raises [ValueError] exactly when [periods] is
    negative or there are no initial values at all, and [OverflowError]
    only when [periods >= 0] and one of the powers it computes has no
    value. *)
Theorem build_new_df_errors (a : Assumptions num) (periods x y : Z) :
  ((build_new_df a periods x y).2 = Err ValueError ↔
   periods < 0 ∨ initial_values a = []) ∧
  (∀ e, (build_new_df a periods x y).2 = Err e →
        e = ValueError ∨ e = KeyError ∨ e = OverflowError) ∧
  ((build_new_df a periods x y).2 = Err OverflowError →
   0 ≤ periods ∧
   power_overflows (static_keys a) (override_rates (avg_growth_rates a) x y)
                   (initial_values a) periods).
Proof.
  split; [|split].
  - split.
    + intros [[_ ?]|[[[=] _]|[[=] _]]]%build_new_df_Err_cases. done.
    + intros Hcause. unfold build_new_df. cbn [snd].
      destruct Hcause as [Hneg|Hnil].
      * rewrite (build_table_spec _ _ _ _
          ((λ kv, (kv.1, [])) <$> initial_values a)).
        -- by destruct (Z.ltb_spec periods 0); [|lia].
        -- apply mapM_total. intros [k iv] _. by rewrite project_row_negative.
      * rewrite Hnil. rewrite (build_table_spec _ _ _ _ []) by done.
        cbn [is_nil]. by rewrite orb_true_r.
  - intros e [[-> _]|[[-> _]|[-> _]]]%build_new_df_Err_cases; tauto.
  - intros [[[=] _]|[[[=] _]|(_ & Hper & _ & Hover)]]%build_new_df_Err_cases.
    by split.
Qed.

(** X10.  The slider of a static sales category changes nothing in the result:
    the loop leaves a static category before it reads the rate. *)
Theorem static_sales_ignore_slider (a : Assumptions num) (periods x x' y y' : Z) :
  ("Product Sales" ∈ static_keys a →
     (build_new_df a periods x y).2 = (build_new_df a periods x' y).2) ∧
  ("Service Sales" ∈ static_keys a →
     (build_new_df a periods x y).2 = (build_new_df a periods x y').2).
Proof.
  unfold build_new_df. cbn [snd].
  destruct (override_rates_lookup (avg_growth_rates a) x y) as (Hp & Hs & Ho).
  split; intros Hstatic; apply build_table_ext; intros key Hkey.
  - destruct (override_rates_lookup (avg_growth_rates a) x' y) as (Hp' & Hs' & Ho').
    destruct (decide (key = "Product Sales")) as [->|Hnp]; [done|].
    destruct (decide (key = "Service Sales")) as [->|Hns]; [congruence|].
    by rewrite Ho, Ho'.
  - destruct (override_rates_lookup (avg_growth_rates a) x y') as (Hp' & Hs' & Ho').
    destruct (decide (key = "Service Sales")) as [->|Hns]; [done|].
    destruct (decide (key = "Product Sales")) as [->|Hnp]; [congruence|].
    by rewrite Ho, Ho'.
Qed.

Lemma override_rates_override (rates : gmap string num) x0 y0 x y :
  override_rates (override_rates rates x0 y0) x y = override_rates rates x y.
Proof.
  apply map_eq. intros key.
  destruct (override_rates_lookup rates x y) as (Hp & Hs & Ho).
  destruct (override_rates_lookup rates x0 y0) as (_ & _ & Ho0).
  destruct (override_rates_lookup (override_rates rates x0 y0) x y)
    as (Hp' & Hs' & Ho').
  destruct (decide (key = "Product Sales")) as [->|Hnp]; [congruence|].
  destruct (decide (key = "Service Sales")) as [->|Hns]; [congruence|].
  by rewrite Ho', Ho0, Ho.
Qed.

Lemma initial_values_after_calls (a : Assumptions num) (calls : list (Z * Z * Z)) :
  initial_values (foldl (λ s c, (build_new_df s c.1.1 c.1.2 c.2).1) a calls) =
  initial_values a.
Proof.
  revert a. induction calls as [|c calls IH]; intros a; simpl; [done|].
  by rewrite IH.
Qed.

Lemma override_rates_after_calls (a : Assumptions num) (calls : list (Z * Z * Z)) x y :
  override_rates
    (avg_growth_rates (foldl (λ s c, (build_new_df s c.1.1 c.1.2 c.2).1) a calls))
    x y =
  override_rates (avg_growth_rates a) x y.
Proof.
  revert a. induction calls as [|c calls IH]; intros a; simpl; [done|].
  rewrite IH. cbn [build_new_df fst avg_growth_rates].
  apply override_rates_override.
Qed.

(** X11.  Earlier calls leave no trace in later ones: after any sequence of
    calls on the shared assumptions, a call returns the result, and leaves
    the state, that the same call gives on the assumptions as extracted.
    Each call overwrites the only entries an earlier call has written. *)
Theorem build_new_df_forgets_calls (a : Assumptions num)
    (calls : list (Z * Z * Z)) (periods x y : Z) :
  build_new_df (foldl (λ s c, (build_new_df s c.1.1 c.1.2 c.2).1) a calls)
               periods x y =
  build_new_df a periods x y.
Proof.
  unfold build_new_df at 1 3.
  by rewrite static_keys_after_calls, initial_values_after_calls,
    override_rates_after_calls.
Qed.

Lemma well_formed_after_calls (a : Assumptions num) (calls : list (Z * Z * Z)) :
  well_formed a →
  well_formed (foldl (λ s c, (build_new_df s c.1.1 c.1.2 c.2).1) a calls).
Proof.
  revert a. induction calls as [|c calls IH]; intros a Hwf; [done|].
  cbn [foldl]. apply IH. exact (build_new_df_well_formed a c.1.1 c.1.2 c.2 Hwf).
Qed.

(** ** Well-formed assumptions *)

Lemma well_formed_keys (a : Assumptions num) k iv :
  well_formed a → (k, iv) ∈ initial_values a → k ∈ category_names.
Proof.
  intros [<- _] Hin. apply list_elem_of_fmap. by exists (k, iv).
Qed.

Lemma well_formed_not_nil (a : Assumptions num) :
  well_formed a → initial_values a ≠ [].
Proof. intros [Hkeys _] Hnil. rewrite Hnil in Hkeys. discriminate. Qed.

(** On well-formed assumptions and for [periods >= 0] the builder returns
    a table when every power has a value, and raises [OverflowError], and
    nothing else, when one has none. *)
Lemma build_new_df_wf_result (a : Assumptions num) periods x y :
  well_formed a → 0 ≤ periods →
  (powers_return (static_keys a) (override_rates (avg_growth_rates a) x y)
                 (initial_values a) periods →
   ∃ t, (build_new_df a periods x y).2 = Ok t) ∧
  (power_overflows (static_keys a) (override_rates (avg_growth_rates a) x y)
                   (initial_values a) periods →
   (build_new_df a periods x y).2 = Err OverflowError) ∧
  (∀ e, (build_new_df a periods x y).2 = Err e → e = OverflowError).
Proof.
  intros Hwf Hper.
  assert (∀ e, (build_new_df a periods x y).2 = Err e → e = OverflowError)
    as Honly.
  { intros e [[_ [Hneg|Hnil]]|[(_ & _ & _ & Hkey)|[-> _]]]%build_new_df_Err_cases;
      [lia|by apply well_formed_not_nil in Hnil| |done].
    destruct Hkey as [(k & iv & Hin & Hns & Hnone)|(k & Hk & Hmiss)].
    - destruct (rate_defined a x y k Hwf) as [rate Hrate];
        [by eapply well_formed_keys|done|congruence].
    - destruct Hwf as [Hkeys _]. by rewrite Hkeys in Hmiss. }
  split; [|split; [|done]].
  - intros Hpow. apply build_new_df_Ok_intro; [done| |].
    + intros k Hk. destruct Hwf as [Hkeys _]. by rewrite Hkeys.
    + intros k iv Hin Hns.
      destruct (rate_defined a x y k Hwf) as [rate Hrate];
        [by eapply well_formed_keys|done|].
      exists rate. split; [done|]. intros p Hp. by eapply Hpow.
  - intros (k & iv & rate & p & Hin & Hns & Hrate & Hp & Hnone).
    destruct ((build_new_df a periods x y).2) as [t|e] eqn:Ht.
    + apply build_new_df_Ok_powers in Ht as (_ & _ & Hpow).
      destruct (Hpow k iv Hin Hns) as (rate' & Hrate' & Hsome).
      assert (rate' = rate) as -> by congruence.
      destruct (Hsome p Hp) as [power Hpower]. congruence.
    + f_equal. by apply Honly.
Qed.

(** The table returned holds, for each category, the row the loop
    computed for it. *)
Lemma build_new_df_rows (a : Assumptions num) (periods x y : Z) t :
  well_formed a → (build_new_df a periods x y).2 = Ok t →
  ∀ key initial_value, (key, initial_value) ∈ initial_values a →
    key ∈ category_names ∧
    ∃ series,
      assoc key (rows t) = Some series ∧
      project_row (static_keys a) (override_rates (avg_growth_rates a) x y)
                  periods key initial_value = Ok series.
Proof.
  intros Hwf (Hper & data & ps & ss & cogs & mk & st & Hdata & Hps & Hss & Hcogs
              & Hmk & Hst & ->)%build_new_df_Ok_inv.
  destruct (well_formed_initial a Hwf) as (i1 & i2 & i3 & i4 & i5 & Hinit).
  rewrite Hinit in Hdata |- *. cbn [mapM fst snd] in Hdata.
  destruct (project_row _ _ _ "Product Sales" i1) as [r1|] eqn:E1; [|discriminate].
  destruct (project_row _ _ _ "Service Sales" i2) as [r2|] eqn:E2; [|discriminate].
  destruct (project_row _ _ _ "Cost of Goods Sold" i3) as [r3|] eqn:E3; [|discriminate].
  destruct (project_row _ _ _ "Marketing" i4) as [r4|] eqn:E4; [|discriminate].
  destruct (project_row _ _ _ "Staff Salaries" i5) as [r5|] eqn:E5; [|discriminate].
  injection Hdata as <-.
  injection Hps as <-. injection Hss as <-. injection Hcogs as <-.
  injection Hmk as <-. injection Hst as <-.
  intros key iv. rewrite !elem_of_cons, elem_of_nil.
  intros [[= -> ->]|[[= -> ->]|[[= -> ->]|[[= -> ->]|[[= -> ->]|[]]]]]];
    (split; [compute_done|]); eexists; (split; [reflexivity|done]).
Qed.

(** The row of a category in a table returned for well-formed assumptions. *)
Lemma build_new_df_row_cases (a : Assumptions num) (periods x y : Z) t :
  well_formed a → (build_new_df a periods x y).2 = Ok t →
  ∀ key initial_value, (key, initial_value) ∈ initial_values a →
    ∃ series,
      assoc key (rows t) = Some series ∧
      if is_static (static_keys a) key
      then series = replicate (Z.to_nat (periods + 1)) initial_value
      else ∃ rate,
        override_rates (avg_growth_rates a) x y !! key = Some rate ∧
        compound initial_value rate periods = Ok series.
Proof.
  intros Hwf Ht key iv Hin.
  destruct (build_new_df_rows a periods x y t Hwf Ht key iv Hin)
    as (Hkey & series & Hassoc & Hser).
  exists series. split; [done|].
  destruct (is_static (static_keys a) key) eqn:Hs.
  - rewrite project_row_static in Hser by done. by injection Hser.
  - destruct (rate_defined a x y key Hwf Hkey) as [rate Hrate];
      [by apply is_static_false|].
    exists rate. split; [done|].
    by rewrite (project_row_growing _ _ _ _ _ rate) in Hser.
Qed.

(** C1, as the program has it.  For well-formed assumptions and
    [periods >= 0]: when every power [(1 + rate) ** p] the loop computes
    has a value the builder returns a table, and when one raises the
    builder raises [OverflowError].  In every table returned the row of a
    static category is its initial value repeated [periods + 1] times, and
    the row of any other category has [periods + 1] entries, entry [p]
    being [round(initial * (1 + rate) ** p, 2)]: each entry is compounded
    from the initial value, none is computed from the entry before it.
    The rate is the one in [avg_growth_rates] once the two sales rates
    have been assigned from the sliders. *)
Theorem build_new_df_series (a : Assumptions num) (periods x y : Z) :
  well_formed a → 0 ≤ periods →
  let rates := avg_growth_rates (build_new_df a periods x y).1 in
  rates !! "Product Sales" = Some (quot (of_Z x) (of_Z 100)) ∧
  rates !! "Service Sales" = Some (quot (of_Z y) (of_Z 100)) ∧
  (∀ key, key ≠ "Product Sales" → key ≠ "Service Sales" →
          rates !! key = avg_growth_rates a !! key) ∧
  (powers_return (static_keys a) rates (initial_values a) periods →
   ∃ t, (build_new_df a periods x y).2 = Ok t) ∧
  (power_overflows (static_keys a) rates (initial_values a) periods →
   (build_new_df a periods x y).2 = Err OverflowError) ∧
  ∀ t, (build_new_df a periods x y).2 = Ok t →
    ∀ key initial_value, (key, initial_value) ∈ initial_values a →
      ∃ series,
        assoc key (rows t) = Some series ∧
        if is_static (static_keys a) key
        then series = replicate (Z.to_nat (periods + 1)) initial_value
        else ∃ rate,
          rates !! key = Some rate ∧
          length series = Z.to_nat (periods + 1) ∧
          ∀ p, 0 ≤ p ≤ periods →
            ∃ power,
              pow (add (of_Z 1) rate) p = Some power ∧
              series !! Z.to_nat p = Some (round2 (mul initial_value power)).
Proof.
  intros Hwf Hper. cbn [build_new_df fst avg_growth_rates].
  destruct (override_rates_lookup (avg_growth_rates a) x y) as (Hp & Hs & Ho).
  repeat (split; [done|]).
  destruct (build_new_df_wf_result a periods x y Hwf Hper) as (Hret & Hover & _).
  split; [done|]. split; [done|].
  intros t Ht key iv Hin.
  destruct (build_new_df_row_cases a periods x y t Hwf Ht key iv Hin)
    as (series & Hassoc & Hcase).
  exists series. split; [done|].
  destruct (is_static (static_keys a) key); [done|].
  destruct Hcase as (rate & Hrate & Hseries). exists rate. split; [done|].
  split; [by eapply length_compound|].
  intros p Hp'. by eapply lookup_compound.
Qed.

(** C5.  Whatever the assumptions and the override rates, the builder
    raises [ValueError] when [periods < 0] (the frame then has no column
    to carry the label [Initial]).  For [periods >= 0] it raises
    [ValueError] only when there is no initial value at all, hence never
    on well-formed assumptions. *)
Theorem build_new_df_periods (a : Assumptions num) (periods x y : Z) :
  (periods < 0 → (build_new_df a periods x y).2 = Err ValueError) ∧
  (0 ≤ periods →
   ((build_new_df a periods x y).2 = Err ValueError ↔ initial_values a = [])) ∧
  (0 ≤ periods → well_formed a →
   (build_new_df a periods x y).2 ≠ Err ValueError).
Proof.
  assert (periods < 0 ∨ initial_values a = [] →
          (build_new_df a periods x y).2 = Err ValueError) as Hvalue.
  { intros Hcause. unfold build_new_df. cbn [snd].
    destruct Hcause as [Hneg|Hnil].
    - rewrite (build_table_spec _ _ _ _
        ((λ kv, (kv.1, [])) <$> initial_values a)).
      + by destruct (Z.ltb_spec periods 0); [|lia].
      + apply mapM_total. intros [k iv] _. by rewrite project_row_negative.
    - rewrite Hnil. rewrite (build_table_spec _ _ _ _ []) by done.
      cbn [is_nil]. by rewrite orb_true_r. }
  assert (0 ≤ periods → (build_new_df a periods x y).2 = Err ValueError →
          initial_values a = []) as Hempty.
  { intros Hper [[_ [?|?]]|[[[=] _]|[[=] _]]]%build_new_df_Err_cases;
      [lia|done]. }
  split; [|split].
  - intros Hneg. apply Hvalue. by left.
  - intros Hper. split; [by apply Hempty|]. intros Hnil. apply Hvalue. by right.
  - intros Hper Hwf Herr. by apply (well_formed_not_nil a Hwf), Hempty.
Qed.

(** C10.  In every table returned for well-formed assumptions, given that
    [z ** 0] is [1] and that [initial * 1] is [initial], the [Initial]
    column of a category that is not static holds [round(initial, 2)]
    while that of a static category holds [initial] itself.  So two
    categories with the same stored initial value, one static and one not,
    show different [Initial] cells whenever rounding changes that value. *)
Theorem build_new_df_initial_column (a : Assumptions num) (periods x y : Z) t :
  well_formed a → (build_new_df a periods x y).2 = Ok t →
  (∀ z, pow z 0 = Some (of_Z 1)) →
  (∀ key initial_value,
     (key, initial_value) ∈ initial_values a →
     mul initial_value (of_Z 1) = initial_value →
     ∃ series,
       assoc key (rows t) = Some series ∧
       series !! 0%nat =
         Some (if is_static (static_keys a) key
               then initial_value else round2 initial_value)) ∧
  (∀ key1 key2 initial_value,
     (key1, initial_value) ∈ initial_values a →
     (key2, initial_value) ∈ initial_values a →
     is_static (static_keys a) key1 = true →
     is_static (static_keys a) key2 = false →
     mul initial_value (of_Z 1) = initial_value →
     round2 initial_value ≠ initial_value →
     ∃ series1 series2 cell1 cell2,
       assoc key1 (rows t) = Some series1 ∧
       assoc key2 (rows t) = Some series2 ∧
       series1 !! 0%nat = Some cell1 ∧ series2 !! 0%nat = Some cell2 ∧
       cell1 = initial_value ∧ cell2 = round2 initial_value ∧
       cell1 ≠ cell2).
Proof.
  intros Hwf Ht Hpow.
  pose proof (build_new_df_Ok_inv a periods x y t Ht) as [Hper _].
  assert (∀ key iv, (key, iv) ∈ initial_values a → mul iv (of_Z 1) = iv →
    ∃ series, assoc key (rows t) = Some series ∧
      series !! 0%nat =
        Some (if is_static (static_keys a) key then iv else round2 iv)) as Hcol.
  { intros key iv Hin Hmul.
    destruct (build_new_df_row_cases a periods x y t Hwf Ht key iv Hin)
      as (series & Hassoc & Hcase).
    exists series. split; [done|].
    destruct (is_static (static_keys a) key).
    - subst series. apply lookup_replicate_2. lia.
    - destruct Hcase as (rate & _ & Hseries).
      destruct (lookup_compound iv rate periods series 0 Hseries)
        as (power & Hpower & Hcell); [lia|].
      rewrite Hpow in Hpower. injection Hpower as <-.
      change (Z.to_nat 0) with 0%nat in Hcell. by rewrite Hcell, Hmul. }
  split; [exact Hcol|].
  intros key1 key2 iv Hin1 Hin2 Hs1 Hs2 Hmul Hround.
  destruct (Hcol key1 iv Hin1 Hmul) as (series1 & Hser1 & Hc1).
  destruct (Hcol key2 iv Hin2 Hmul) as (series2 & Hser2 & Hc2).
  rewrite Hs1 in Hc1. rewrite Hs2 in Hc2.
  exists series1, series2, iv, (round2 iv). repeat (split; [done|]). congruence.
Qed.

(** X12.  What [main] chains: on whatever extraction returns, and after any
    calls already made, the builder called with [periods >= 0] returns a
    table when every power it computes has a value, and otherwise raises
    [OverflowError]; it raises neither [KeyError] nor [ValueError]. *)
Theorem extraction_then_projection (df : DataFrame num) a
    (calls : list (Z * Z * Z)) (periods x y : Z) :
  main_flow df = Ok a → 0 ≤ periods →
  let a' := foldl (λ s c, (build_new_df s c.1.1 c.1.2 c.2).1) a calls in
  (powers_return (static_keys a') (override_rates (avg_growth_rates a') x y)
                 (initial_values a') periods →
   ∃ t, (build_new_df a' periods x y).2 = Ok t) ∧
  (power_overflows (static_keys a') (override_rates (avg_growth_rates a') x y)
                   (initial_values a') periods →
   (build_new_df a' periods x y).2 = Err OverflowError) ∧
  (∀ e, (build_new_df a' periods x y).2 = Err e → e = OverflowError).
Proof.
  intros Hmain%main_flow_well_formed Hper. cbv zeta.
  apply (well_formed_after_calls a calls) in Hmain.
  exact (build_new_df_wf_result _ periods x y Hmain Hper).
Qed.

(** X13.  From the sheet to the table: in every table returned for the
    assumptions extracted from a sheet, the row of a static category
    repeats, in every column, the cell of its row in column 1 of the
    sheet. *)
Theorem static_projection_from_sheet (df : DataFrame num) a (periods x y : Z) t :
  main_flow df = Ok a → (build_new_df a periods x y).2 = Ok t →
  Forall2 (λ r key,
             key ∈ static_keys a →
             ∃ row cell,
               df_rows df !! r = Some row ∧ row !! 1%nat = Some cell ∧
               assoc key (rows t) =
                 Some (replicate (Z.to_nat (periods + 1)) cell))
          category_rows category_names.
Proof.
  intros Hmain Ht.
  pose proof (main_flow_well_formed df a Hmain) as Hwf.
  pose proof (build_new_df_rows a periods x y t Hwf Ht) as Hrows.
  apply main_flow_inv in Hmain as (sections & initial & Hid & _ & _ & Hinit & ->).
  cbn [initial_values static_keys] in *.
  apply identify_key_sections_inv in Hid
    as (_ & r2 & r3 & r6 & r7 & r8 & H2 & H3 & H6 & H7 & H8 & ->).
  assert (∀ row : list num,
    elems (slice_of df row) !! 0%nat = row !! 1%nat) as Hcell.
  { intros row. simpl. rewrite lookup_take_lt by lia. by rewrite lookup_drop. }
  cbn [mapM fst snd] in Hinit. rewrite !Hcell in Hinit.
  destruct (r2 !! 1%nat) as [v2|] eqn:E2; [|discriminate].
  destruct (r3 !! 1%nat) as [v3|] eqn:E3; [|discriminate].
  destruct (r6 !! 1%nat) as [v6|] eqn:E6; [|discriminate].
  destruct (r7 !! 1%nat) as [v7|] eqn:E7; [|discriminate].
  destruct (r8 !! 1%nat) as [v8|] eqn:E8; [|discriminate].
  injection Hinit as <-.
  assert (∀ key v, (key, v) ∈
      [("Product Sales", v2); ("Service Sales", v3); ("Cost of Goods Sold", v6);
       ("Marketing", v7); ("Staff Salaries", v8)] →
    key ∈ static_of (growth_of
      [("Product Sales", slice_of df r2); ("Service Sales", slice_of df r3);
       ("Cost of Goods Sold", slice_of df r6); ("Marketing", slice_of df r7);
       ("Staff Salaries", slice_of df r8)]) →
    assoc key (rows t) = Some (replicate (Z.to_nat (periods + 1)) v)) as Hstatic.
  { intros key v Hin Hs.
    destruct (Hrows key v Hin) as (_ & series & Hassoc & Hser).
    rewrite project_row_static in Hser by (by apply is_static_true_iff).
    by injection Hser as <-. }
  unfold category_rows, category_names.
  repeat (apply Forall2_cons; split;
    [intros Hs; eexists _, _; split; [eassumption|]; split; [eassumption|];
     apply Hstatic; [|done]; rewrite !elem_of_cons; tauto|]).
  apply Forall2_nil_2.
Qed.

End Properties.

(** * The sample sheets, evaluated *)

Section Samples.
Import Binary64 Examples.

Example main_flow_sheet : main_flow sheet = Ok sheet_assumptions.
Proof. vm_compute. reflexivity. Qed.

Example main_flow_flat_sheet : main_flow flat_sheet = Ok flat_assumptions.
Proof. vm_compute. reflexivity. Qed.

(** Constant growth of 10 percent gives rates of 0.1. *)
Example constant_growth :
  rates_of (map float_of_Z [100; 110; 121]) = [1 / 10; 1 / 10]%float.
Proof. vm_compute. reflexivity. Qed.

(** A value of 100 compounded at 4 percent over three periods. *)
Example four_percent :
  compound 100%float (quot (of_Z 4) (of_Z 100)) 3 =
    Ok [100; 104; 10816 / 100; 11249 / 100]%float.
Proof. vm_compute. reflexivity. Qed.

(** A history with one unchanged month is static. *)
Example unchanged_month :
  has_zero (rates_of (map float_of_Z [50; 50; 60; 50])) = true.
Proof. vm_compute. reflexivity. Qed.

(** The table for [sheet], three periods, rates of 4 and 5 percent. *)
Example sheet_table :
  (build_new_df sheet_assumptions 3 4 5).2 =
    Ok {| columns := ["Category"; "Initial"; "Month 1"; "Month 2"; "Month 3"];
          rows :=
            [("Product Sales", [1; 104 / 100; 108 / 100; 112 / 100]);
             ("Service Sales", [200; 210; 2205 / 10; 23153 / 100]);
             ("Total Sales",
              [200 + 1; 210 + 104 / 100; 2205 / 10 + 108 / 100;
               23153 / 100 + 112 / 100]);
             ("Cost of Goods Sold", [50; 50; 50; 50]);
             ("Marketing", [20; 20; 20; 20]);
             ("Staff Salaries", [300; 303; 30603 / 100; 30909 / 100]);
             ("Total Operating Expenses",
              [370; 373; 70 + 30603 / 100; 70 + 30909 / 100]);
             ("Net Income",
              [201 - 370; (210 + 104 / 100) - 373;
               (2205 / 10 + 108 / 100) - (70 + 30603 / 100);
               (23153 / 100 + 112 / 100) - (70 + 30909 / 100)])]%float |}.
Proof. vm_compute. reflexivity. Qed.

Lemma sheet_well_shaped (kind : scalar_kind) (product_sales : list Z) :
  length product_sales = 13%nat → well_shaped (sheet_of kind product_sales).
Proof.
  intros Hlen. split; [simpl; lia|].
  unfold sheet_of, line. cbn [df_rows].
  repeat (apply Forall_cons; split; [simpl; rewrite ?length_map, ?Hlen; lia|]).
  apply Forall_nil_2.
Defined.

Lemma same_initial_well_formed : well_formed same_initial.
Proof.
  split; [reflexivity|]. intros key Hkey Hns.
  rewrite !elem_of_cons, elem_of_nil in Hkey.
  destruct Hkey as [->|[->|[->|[]]]].
  - exfalso. apply Hns. compute_done.
  - exfalso. apply Hns. compute_done.
  - vm_compute. by eexists.
Defined.

Lemma same_initial_powers_return :
  powers_return (static_keys same_initial)
                (override_rates (avg_growth_rates same_initial) 4 5)
                (initial_values same_initial) 3.
Proof.
  intros key iv rate p Hin Hns Hrate Hp.
  assert (p = 0 ∨ p = 1 ∨ p = 2 ∨ p = 3) as Hcases by lia.
  cbn [initial_values same_initial] in Hin.
  rewrite !elem_of_cons, elem_of_nil in Hin.
  destruct Hin as [Hin|[Hin|[Hin|[Hin|[Hin|[]]]]]]; injection Hin as -> ->;
    try (exfalso; apply Hns; compute_done);
    vm_compute in Hrate; injection Hrate as <-;
    destruct Hcases as [->|[->|[->| ->]]]; vm_compute; by eexists.
Defined.

(** C1 as the specification words it fails on what extraction returns for
    [sheet]: with 1024 periods and a product-sales slider at 100 the power
    [2.0 ** 1024] raises, and the builder returns no table. *)
Lemma power_overflow_raises :
  main_flow sheet = Ok sheet_assumptions ∧ 0 ≤ 1024 ∧
  ("Product Sales" ∉ static_keys sheet_assumptions) ∧
  pow (add (of_Z 1) (quot (of_Z 100) (of_Z 100))) 1024 = None ∧
  (build_new_df sheet_assumptions 1024 100 5).2 = Err OverflowError.
Proof.
  split; [vm_compute; reflexivity|]. split; [lia|].
  split; [compute_done|]. split; vm_compute; reflexivity.
Qed.

(** C1 as amended, on [same_initial], three periods, rates of 4 and 5
    percent: no power raises, the table is returned, and entry 2 of the
    service sales is compounded from the initial value. *)
Lemma build_new_df_series_witness :
  well_formed same_initial ∧ 0 ≤ 3 ∧
  ∃ t, (build_new_df same_initial 3 4 5).2 = Ok t ∧
    assoc "Product Sales" (rows t) = Some (replicate 4 100.125%float) ∧
    ∃ series rate power,
      assoc "Service Sales" (rows t) = Some series ∧
      rate = (5 / 100)%float ∧
      pow (add 1%float rate) 2 = Some power ∧
      series !! 2%nat = Some (round2 (mul 100.125%float power)).
Proof.
  split; [exact same_initial_well_formed|]. split; [lia|].
  destruct (build_new_df_series same_initial 3 4 5 same_initial_well_formed
              ltac:(lia)) as (_ & Hss & _ & Hret & _ & Hrows).
  destruct (Hret same_initial_powers_return) as [t Ht].
  exists t. split; [exact Ht|]. split.
  - destruct (Hrows t Ht "Product Sales" 100.125%float)
      as (series & Hser & Hcase).
    { left. }
    rewrite Hser. exact (f_equal Some Hcase).
  - destruct (Hrows t Ht "Service Sales" 100.125%float)
      as (series & Hser & Hcase).
    { right. left. }
    destruct Hcase as (rate & Hrate & _ & Hent).
    destruct (Hent 2 ltac:(lia)) as (power & Hpower & Hcell).
    exists series, rate, power. split; [exact Hser|]. split; [|split].
    + rewrite Hss in Hrate. injection Hrate as <-. reflexivity.
    + exact Hpower.
    + exact Hcell.
Defined.

(** C2 on [sheet]: the static categories are the two with a zero rate. *)
Lemma main_flow_static_and_averages_witness :
  main_flow sheet = Ok sheet_assumptions ∧
  static_keys sheet_assumptions ⊆ category_names ∧
  dom (avg_growth_rates sheet_assumptions) =
    list_to_set category_names ∖ list_to_set (static_keys sheet_assumptions).
Proof.
  assert (main_flow sheet = Ok sheet_assumptions) as Hmain
    by (vm_compute; reflexivity).
  split; [exact Hmain|].
  destruct (main_flow_static_and_averages sheet sheet_assumptions Hmain)
    as (sections & growth & _ & _ & _ & _ & Hsub & Hdom & _).
  split; [exact Hsub | exact Hdom].
Defined.

(** C3 on [same_initial], two periods. *)
Lemma build_new_df_derived_rows_witness :
  ∃ t, (build_new_df same_initial 2 4 5).2 = Ok t ∧
  ∃ ps ss ts,
    assoc "Product Sales" (rows t) = Some ps ∧
    assoc "Service Sales" (rows t) = Some ss ∧
    assoc "Total Sales" (rows t) = Some ts ∧
    ts = zip_with add ps ss.
Proof.
  eexists. split; [vm_compute; reflexivity|].
  edestruct (build_new_df_derived_rows same_initial 2 4 5)
    as (ps & ss & ts & cogs & mk & st & toe & ni & Hps & Hss & Hts & _ & _ & _
        & _ & _ & Hsum & _).
  { vm_compute. reflexivity. }
  exists ps, ss, ts. split; [exact Hps|]. split; [exact Hss|].
  split; [exact Hts | exact Hsum].
Defined.

(** C4 as the specification words it fails on [flat_sheet]: product sales
    are static, and one call of the builder puts their rate into the
    mapping. *)
Lemma static_category_gets_rate :
  main_flow flat_sheet = Ok flat_assumptions ∧
  avg_growth_rates flat_assumptions !! "Product Sales" = None ∧
  let a' := (build_new_df flat_assumptions 3 4 5).1 in
  "Product Sales" ∈ static_keys a' ∧
  avg_growth_rates a' !! "Product Sales" = Some (4 / 100)%float.
Proof.
  split; [vm_compute; reflexivity|]. split; [vm_compute; reflexivity|].
  split; [compute_done | vm_compute; reflexivity].
Qed.

(** C4 as amended, on [flat_sheet] and one call. *)
Lemma static_categories_and_rates_witness :
  main_flow flat_sheet = Ok flat_assumptions ∧
  let a' := foldl (λ s c, (build_new_df s c.1.1 c.1.2 c.2).1)
                  flat_assumptions [(3, 4, 5)] in
  static_keys a' = static_keys flat_assumptions ∧
  ∀ key, key ∈ static_keys a' →
    (is_Some (avg_growth_rates a' !! key) ↔
     is_nil [(3, 4, 5)] = false ∧ (key = "Product Sales" ∨ key = "Service Sales")).
Proof.
  assert (main_flow flat_sheet = Ok flat_assumptions) as Hmain
    by (vm_compute; reflexivity).
  split; [exact Hmain|].
  destruct (static_categories_and_rates flat_sheet flat_assumptions [(3, 4, 5)]
              Hmain) as (_ & Hstatic & _ & Hiff).
  split; [exact Hstatic | exact Hiff].
Defined.

(** C5 on [same_initial]: minus one period, and three periods. *)
Lemma build_new_df_periods_witness :
  (-1 < 0 ∧ (build_new_df same_initial (-1) 4 5).2 = Err ValueError) ∧
  (0 ≤ 3 ∧ well_formed same_initial ∧
   (build_new_df same_initial 3 4 5).2 ≠ Err ValueError).
Proof.
  split.
  - split; [lia|].
    apply (proj1 (build_new_df_periods same_initial (-1) 4 5)). lia.
  - split; [lia|]. split; [exact same_initial_well_formed|].
    apply (proj2 (proj2 (build_new_df_periods same_initial 3 4 5))); [lia|].
    exact same_initial_well_formed.
Defined.

Lemma narrow_sheet_rectangular : rectangular 5 narrow_sheet.
Proof.
  unfold rectangular, narrow_sheet. cbn [df_rows].
  repeat (apply Forall_cons; split; [reflexivity|]). apply Forall_nil_2.
Defined.

(** C6 as the specification words it fails on [narrow_sheet]: five columns
    are fewer than 14, yet the slicing step and the extraction return. *)
Lemma narrow_sheet_is_extracted :
  rectangular 5 narrow_sheet ∧ (5 < 14)%nat ∧
  length (df_rows narrow_sheet) = 9%nat ∧
  identify_key_sections narrow_sheet =
    Ok [("Product Sales",
         {| dtype := NumPyScalar; elems := map float_of_Z [100; 110; 121; 133] |});
        ("Service Sales",
         {| dtype := NumPyScalar; elems := map float_of_Z [200; 210; 220; 230] |});
        ("Cost of Goods Sold",
         {| dtype := NumPyScalar; elems := map float_of_Z [50; 50; 50; 50] |});
        ("Marketing",
         {| dtype := NumPyScalar; elems := map float_of_Z [20; 20; 30; 20] |});
        ("Staff Salaries",
         {| dtype := NumPyScalar; elems := map float_of_Z [300; 303; 306; 309] |})] ∧
  is_ok (main_flow narrow_sheet) = true ∧
  main_flow narrow_sheet ≠ Err IndexError.
Proof.
  split; [exact narrow_sheet_rectangular|]. split; [lia|].
  split; [reflexivity|]. split; [vm_compute; reflexivity|].
  split; [vm_compute; reflexivity|]. vm_compute. discriminate.
Qed.

(** C6 as amended, on [narrow_sheet]. *)
Lemma extraction_index_error_witness :
  rectangular 5 narrow_sheet ∧
  ∃ sections,
    identify_key_sections narrow_sheet = Ok sections ∧
    Forall (λ kv, length (elems kv.2) = 4%nat) sections.
Proof.
  split; [exact narrow_sheet_rectangular|].
  destruct (extraction_index_error 5 narrow_sheet narrow_sheet_rectangular)
    as (_ & _ & Hslices).
  destruct Hslices as (sections & Hid & _ & Hlen & _); [simpl; lia|].
  exists sections. split; [exact Hid | exact Hlen].
Defined.

(** C7 as the specification words it fails on [zero_sheet]: a numeric
    frame whose product sales start at zero; the first rate is an infinity
    and nothing is raised. *)
Lemma zero_divisor_without_error :
  well_shaped zero_sheet ∧ zero_divisor zero_sheet = true ∧
  (∃ growth series,
     identify_key_sections zero_sheet ≫= calculate_growth_rates = Ok growth ∧
     assoc "Product Sales" growth = Some series ∧
     series !! 0%nat = Some infinity) ∧
  is_ok (main_flow zero_sheet) = true ∧
  main_flow zero_sheet ≠ Err ZeroDivisionError.
Proof.
  split; [by apply sheet_well_shaped|]. split; [vm_compute; reflexivity|].
  split.
  - eexists _, _. split; [vm_compute; reflexivity|].
    split; [vm_compute; reflexivity|]. reflexivity.
  - split; [vm_compute; reflexivity|]. vm_compute. discriminate.
Qed.

(** C7 as amended, on the same values held as Python objects, where the
    division raises; on [sheet], where none of the divisors is zero; and on
    [zero_sheet], where the first rate of the product sales is rounded from
    the quotient of [10 - 0] by [0]. *)
Lemma extraction_zero_division_witness :
  (well_shaped zero_object_sheet ∧
   main_flow zero_object_sheet = Err ZeroDivisionError) ∧
  (well_shaped sheet ∧ ∃ a, main_flow sheet = Ok a) ∧
  (well_shaped zero_sheet ∧
   ∃ sections growth s g ss gs,
     identify_key_sections zero_sheet = Ok sections ∧
     calculate_growth_rates sections = Ok growth ∧
     sections = s :: ss ∧ growth = g :: gs ∧
     s.1 = "Product Sales" ∧ g.1 = s.1 ∧
     g.2 !! 0%nat = Some (round2 (quot (sub 10 0) 0))%float).
Proof.
  assert (well_shaped zero_object_sheet) as Hz by (by apply sheet_well_shaped).
  assert (well_shaped sheet) as Hs by (by apply sheet_well_shaped).
  assert (well_shaped zero_sheet) as Hn by (by apply sheet_well_shaped).
  split; [split; [exact Hz|] | split; [split; [exact Hs|] | split; [exact Hn|]]].
  - destruct (extraction_zero_division zero_object_sheet Hz)
      as (sections & _ & Hraise & _).
    apply Hraise; vm_compute; reflexivity.
  - destruct (extraction_zero_division sheet Hs) as (sections & _ & _ & Hok).
    apply Hok. left. reflexivity.
  - destruct (extraction_zero_division zero_sheet Hn)
      as (sections & Hid & _ & Hok).
    destruct Hok as ((growth & Hcalc & Hall) & _); [left; reflexivity|].
    vm_compute in Hid. injection Hid as <-.
    inversion Hall as [|s g ss gs (Hkey & Hent) _ Es Eg]. subst.
    eexists _, _, _, g, _, gs. split; [vm_compute; reflexivity|].
    split; [exact Hcalc|]. split; [reflexivity|]. split; [reflexivity|].
    split; [reflexivity|]. split; [exact Hkey|].
    destruct (Hent 1%nat ltac:(lia)) as (vi & vp & Hvi & Hvp & Hrate).
    vm_compute in Hvi. injection Hvi as <-.
    vm_compute in Hvp. injection Hvp as <-.
    exact Hrate.
Defined.

(** C8 on [sheet]. *)
Lemma growth_series_entries_witness :
  well_shaped sheet ∧ zero_divisor sheet = false ∧
  ∃ sections growth,
    identify_key_sections sheet = Ok sections ∧
    calculate_growth_rates sections = Ok growth ∧
    Forall (λ g : string * list float, length g.2 = 12%nat) growth.
Proof.
  assert (well_shaped sheet) as Hs by (by apply sheet_well_shaped).
  split; [exact Hs|]. split; [vm_compute; reflexivity|].
  destruct (growth_series_entries sheet Hs) as (sections & growth & Hid & Hcalc & _ & Hall);
    [vm_compute; reflexivity|].
  exists sections, growth. split; [exact Hid|]. split; [exact Hcalc|].
  clear Hid Hcalc. induction Hall as [|s g ss gs (_ & _ & _ & Hl & _) _ IH];
    constructor; [exact Hl | exact IH].
Defined.

(** C10 on [same_initial]: product sales are static, service sales are
    not, and both start from 100.125, which rounds to 100.12. *)
Lemma build_new_df_initial_column_witness :
  well_formed same_initial ∧
  (∀ z : float, pow z 0 = Some (of_Z 1)) ∧
  round2 100.125%float ≠ 100.125%float ∧
  ∃ t series1 series2 cell1 cell2,
    (build_new_df same_initial 2 4 5).2 = Ok t ∧
    assoc "Product Sales" (rows t) = Some series1 ∧
    assoc "Service Sales" (rows t) = Some series2 ∧
    series1 !! 0%nat = Some cell1 ∧ series2 !! 0%nat = Some cell2 ∧
    cell1 = 100.125%float ∧ cell2 = round2 100.125%float ∧ cell1 ≠ cell2.
Proof.
  assert (∀ z : float, pow z 0 = Some (of_Z 1)) as Hpow
    by (intros z; reflexivity).
  assert (round2 100.125%float ≠ 100.125%float) as Hround
    by (vm_compute; discriminate).
  split; [exact same_initial_well_formed|].
  split; [exact Hpow|]. split; [exact Hround|].
  assert (∃ t, (build_new_df same_initial 2 4 5).2 = Ok t) as [t Ht]
    by (eexists; vm_compute; reflexivity).
  exists t.
  destruct (build_new_df_initial_column same_initial 2 4 5 t
              same_initial_well_formed Ht Hpow) as (_ & Hdiff).
  destruct (Hdiff "Product Sales" "Service Sales" 100.125%float)
    as (s1 & s2 & c1 & c2 & H1 & H2 & H3 & H4 & H5 & H6 & H7).
  - left.
  - right. left.
  - reflexivity.
  - reflexivity.
  - reflexivity.
  - exact Hround.
  - exists s1, s2, c1, c2. repeat (split; [assumption|]). exact H7.
Defined.

(** Extraction gives the same on [sheet] and on [noisy_sheet]. *)
Lemma main_flow_reads_only_sections_witness :
  df_kind sheet = df_kind noisy_sheet ∧
  df_rows sheet ≠ df_rows noisy_sheet ∧
  main_flow noisy_sheet = main_flow sheet.
Proof.
  split; [reflexivity|]. split; [discriminate|].
  apply (main_flow_reads_only_sections noisy_sheet sheet); [reflexivity|].
  intros r Hr. unfold category_rows in Hr. rewrite !elem_of_cons in Hr.
  destruct Hr as [->|[->|[->|[->|[->|Hnil]]]]];
    [vm_compute; reflexivity..|].
  by apply elem_of_nil in Hnil.
Defined.

(** The initial values of [sheet] are its cells in column 1. *)
Lemma main_flow_initial_values_witness :
  main_flow sheet = Ok sheet_assumptions ∧
  (initial_values sheet_assumptions).*1 = category_names ∧
  Forall2 (λ r (kv : string * float),
             ∃ row, df_rows sheet !! r = Some row ∧ row !! 1%nat = Some kv.2)
          category_rows (initial_values sheet_assumptions).
Proof.
  assert (main_flow sheet = Ok sheet_assumptions) as Hmain
    by (vm_compute; reflexivity).
  split; [exact Hmain|].
  exact (main_flow_initial_values sheet sheet_assumptions Hmain).
Defined.

(** Sections of one value and of none give empty series, also where the
    one value is a zero held as a Python object. *)
Lemma calculate_growth_rates_shape_witness :
  Forall (λ s : string * ndarray float, (length (elems s.2) ≤ 1)%nat)
         short_sections ∧
  calculate_growth_rates short_sections =
    Ok [("Product Sales", []); ("Service Sales", [])] ∧
  ∀ growth, calculate_growth_rates short_sections = Ok growth →
            growth.*1 = short_sections.*1.
Proof.
  assert (Forall (λ s : string * ndarray float, (length (elems s.2) ≤ 1)%nat)
                 short_sections) as Hshort.
  { unfold short_sections. repeat (apply Forall_cons; split; [simpl; lia|]).
    apply Forall_nil_2. }
  destruct (calculate_growth_rates_shape short_sections) as [Hkeys Hempty].
  split; [exact Hshort|]. split; [exact (Hempty Hshort)|].
  intros growth Hg. exact (proj1 (Hkeys growth Hg)).
Defined.

(** The static keys of [sheet]. *)
Lemma main_flow_static_keys_ordered_witness :
  main_flow sheet = Ok sheet_assumptions ∧
  static_keys sheet_assumptions `sublist_of` category_names ∧
  NoDup (static_keys sheet_assumptions).
Proof.
  assert (main_flow sheet = Ok sheet_assumptions) as Hmain
    by (vm_compute; reflexivity).
  split; [exact Hmain|].
  exact (main_flow_static_keys_ordered sheet sheet_assumptions Hmain).
Defined.

Lemma thin_sheet_rectangular : rectangular 2 thin_sheet.
Proof.
  unfold rectangular, thin_sheet. cbn [df_rows replicate].
  repeat (apply Forall_cons; split; [reflexivity|]). apply Forall_nil_2.
Defined.

(** [thin_sheet] has nine rows and two columns. *)
Lemma main_flow_too_narrow_witness :
  rectangular 2 thin_sheet ∧ (9 ≤ length (df_rows thin_sheet))%nat ∧
  (2 ≤ 2)%nat ∧ main_flow thin_sheet = Err ZeroDivisionError.
Proof.
  split; [exact thin_sheet_rectangular|]. split; [simpl; lia|]. split; [lia|].
  apply (main_flow_too_narrow 2 thin_sheet thin_sheet_rectangular);
    [simpl; lia | lia].
Defined.

(** [narrow_sheet] is numeric, with nine rows and five columns. *)
Lemma main_flow_numeric_frame_witness :
  df_kind narrow_sheet = NumPyScalar ∧ rectangular 5 narrow_sheet ∧
  ∃ a, main_flow narrow_sheet = Ok a.
Proof.
  split; [reflexivity|]. split; [exact narrow_sheet_rectangular|].
  apply (main_flow_numeric_frame 5 narrow_sheet);
    [reflexivity | exact narrow_sheet_rectangular | simpl; lia | lia].
Defined.

(** The shape of the table for [same_initial] and two periods. *)
Lemma build_new_df_shape_witness :
  ∃ t, (build_new_df same_initial 2 4 5).2 = Ok t ∧
    (rows t).*1 = row_order ∧
    columns t = ["Category"; "Initial"; "Month 1"; "Month 2"] ∧
    NoDup (columns t) ∧
    Forall (λ r : string * list float, length r.2 = 3%nat) (rows t).
Proof.
  eexists. split; [vm_compute; reflexivity|].
  edestruct (build_new_df_shape same_initial 2 4 5)
    as (_ & Hrows & Hcols & _ & Hnd & Hlen); [vm_compute; reflexivity|].
  split; [exact Hrows|]. split; [exact Hcols|]. split; [exact Hnd | exact Hlen].
Defined.

(** Product sales are static in [same_initial]: their slider is idle. *)
Lemma static_sales_ignore_slider_witness :
  "Product Sales" ∈ static_keys same_initial ∧
  (build_new_df same_initial 3 4 5).2 = (build_new_df same_initial 3 90 5).2.
Proof.
  assert ("Product Sales" ∈ static_keys same_initial) as Hs by (by left).
  split; [exact Hs|].
  exact (proj1 (static_sales_ignore_slider same_initial 3 4 90 5 5) Hs).
Defined.

(** On what extraction returns for [sheet], after two calls, one of
    which raised: three periods give a table, and 1024 periods with the
    product-sales slider at 100 raise [OverflowError]. *)
Lemma extraction_then_projection_witness :
  main_flow sheet = Ok sheet_assumptions ∧ 0 ≤ 3 ∧ 0 ≤ 1024 ∧
  let a' := foldl (λ s c, (build_new_df s c.1.1 c.1.2 c.2).1) sheet_assumptions
                  [(-1, 10, 20); (6, 30, 40)] in
  (∀ e, (build_new_df a' 3 4 5).2 = Err e → e = OverflowError) ∧
  (build_new_df a' 1024 100 5).2 = Err OverflowError.
Proof.
  assert (main_flow sheet = Ok sheet_assumptions) as Hmain
    by (vm_compute; reflexivity).
  split; [exact Hmain|]. split; [lia|]. split; [lia|]. cbv zeta. split.
  - apply (extraction_then_projection sheet sheet_assumptions
             [(-1, 10, 20); (6, 30, 40)] 3 4 5 Hmain). lia.
  - apply (extraction_then_projection sheet sheet_assumptions
             [(-1, 10, 20); (6, 30, 40)] 1024 100 5 Hmain); [lia|].
    exists "Product Sales", 1%float, 1%float, 1024.
    split; [left|]. split; [compute_done|].
    split; [vm_compute; reflexivity|]. split; [lia|]. vm_compute. reflexivity.
Defined.

(** On [flat_sheet] the product sales are static. *)
Lemma static_projection_from_sheet_witness :
  main_flow flat_sheet = Ok flat_assumptions ∧
  ∃ t,
    (build_new_df flat_assumptions 3 4 5).2 = Ok t ∧
    assoc "Product Sales" (rows t) = Some (replicate 4 100%float).
Proof.
  assert (main_flow flat_sheet = Ok flat_assumptions) as Hmain
    by (vm_compute; reflexivity).
  split; [exact Hmain|].
  assert (∃ t, (build_new_df flat_assumptions 3 4 5).2 = Ok t) as [t Ht]
    by (eexists; vm_compute; reflexivity).
  exists t. split; [exact Ht|].
  pose proof (static_projection_from_sheet flat_sheet flat_assumptions 3 4 5 t
                Hmain Ht) as Hall.
  inversion Hall as [|r key rs keys Hps _]; subst.
  destruct Hps as (row & cell & Hrow & Hcell & Hassoc); [by left|].
  vm_compute in Hrow. injection Hrow as <-.
  vm_compute in Hcell. injection Hcell as <-. exact Hassoc.
Defined.

End Samples.
